(** * Multi-agent inventory system: ledger, quoting, finance and ordering tools

    Shallow embedding of the deterministic tool functions of the
    "Multi Agent Systems" project ([helpers.py] and the [agents/*_agent.py]
    tools) and of the evaluate loop used by the "Agentic Workflows" project.

    Modelling conventions:
    - money ([price], [unit_price], balances) is held exactly as a rational
      [Q]; Python's [round(x, 2)] is round-half-even of [x * 100];
    - where the rounding of Python's [float] arithmetic decides a result (the
      approval test of [approve_purchase], the reorder cost of
      [check_restock_needed]) the computation is done in IEEE-754 binary64,
      after the Standard Library's [Floats.SpecFloat];
    - unit counts are [Z];
    - dates are the strings the ledger stores; SQLite compares TEXT with the
      BINARY collation, i.e. byte by byte, a proper prefix being smaller;
    - a row's [item_name] may be SQL NULL ([None]). *)

From Stdlib Require Import ZArith QArith Qround Qfield List String Ascii Bool Lia.
From Stdlib Require Import Lqa Permutation.
From Stdlib Require SpecFloat.
Import ListNotations.
Open Scope Z_scope.

(* ------------------------------------------------------------------ *)
(** ** Text comparison as done by SQLite (BINARY collation) *)

Definition ascii_cmp (a b : ascii) : comparison :=
  Nat.compare (nat_of_ascii a) (nat_of_ascii b).

Fixpoint str_cmp (s t : string) : comparison :=
  match s, t with
  | EmptyString, EmptyString => Eq
  | EmptyString, String _ _ => Lt
  | String _ _, EmptyString => Gt
  | String a s', String b t' =>
      match ascii_cmp a b with
      | Eq => str_cmp s' t'
      | c => c
      end
  end.

(** SQL [a <= b] on two TEXT values. *)
Definition str_leb (s t : string) : bool :=
  match str_cmp s t with Gt => false | _ => true end.

(* ------------------------------------------------------------------ *)
(** ** The [transactions] table *)

Record txn := mk_txn {
  item_name : option string;
  transaction_type : string;
  units : Z;
  price : Q;
  transaction_date : string
}.

Definition ledger := list txn.

(** [if len(as_of_date) == 10: as_of_date = f"{as_of_date}T23:59:59"] *)
Definition end_of_day : string := "T23:59:59".

Definition pad_as_of (as_of_date : string) : string :=
  if Nat.eqb (String.length as_of_date) 10
  then (as_of_date ++ end_of_day)%string
  else as_of_date.

Definition opt_str_eqb (o : option string) (s : string) : bool :=
  match o with
  | Some n => String.eqb n s
  | None => false
  end.

(** [get_stock_level]: the [current_stock] column of
    [SELECT COALESCE(SUM(CASE WHEN transaction_type = 'stock_orders' THEN units
                              WHEN transaction_type = 'sales' THEN -units
                              ELSE 0 END), 0)
     FROM transactions WHERE item_name = :item_name
                         AND transaction_date <= :as_of_date]. *)
Definition stock_case (t : txn) : Z :=
  if String.eqb (transaction_type t) "stock_orders" then units t
  else if String.eqb (transaction_type t) "sales" then - units t
  else 0.

Definition get_stock_level (db : ledger) (item : string) (as_of_date : string) : Z :=
  let as_of := pad_as_of as_of_date in
  let rows := filter (fun t => opt_str_eqb (item_name t) item
                               && str_leb (transaction_date t) as_of) db in
  (* COALESCE(SUM(...), 0): SUM over no rows is NULL, coalesced to 0 *)
  match rows with
  | [] => 0
  | _ => fold_right (fun t acc => stock_case t + acc) 0 rows
  end.

(** [get_cash_balance]. The query
    [SELECT * FROM transactions WHERE transaction_date <= :as_of_date]
    either raises ([None]: store failure) or returns rows ([Some db] is the
    table it ran against). *)
Definition sum_price_of_type (ty : string) (rows : ledger) : Q :=
  fold_right (fun t acc => if String.eqb (transaction_type t) ty
                           then price t + acc else acc)%Q 0%Q rows.

Definition get_cash_balance (store : option ledger) (as_of_date : string) : Q :=
  match store with
  | None => 0%Q                                   (* except Exception: return 0.0 *)
  | Some db =>
      let as_of := pad_as_of as_of_date in
      let rows := filter (fun t => str_leb (transaction_date t) as_of) db in
      match rows with
      | [] => 0%Q                                 (* transactions.empty *)
      | _ => (sum_price_of_type "sales" rows - sum_price_of_type "stock_orders" rows)%Q
      end
  end.

(* ------------------------------------------------------------------ *)
(** ** Python's [round(x, 2)] *)

(** Round half to even of a rational to an integer. *)
Definition round_half_even (x : Q) : Z :=
  let f := Qfloor x in
  let r := (x - inject_Z f)%Q in
  match Qcompare r (1 # 2) with
  | Lt => f
  | Gt => f + 1
  | Eq => if Z.even f then f else f + 1
  end.

Definition round2 (x : Q) : Q := (inject_Z (round_half_even (x * 100)) / 100)%Q.

(* ------------------------------------------------------------------ *)
(** ** Python's [float]: IEEE-754 binary64, rounding to nearest even *)

Definition double := SpecFloat.spec_float.
Definition prec : Z := 53.
Definition emax : Z := 1024.

Definition fmul (x y : double) : double := SpecFloat.SFmul prec emax x y.
Definition fsub (x y : double) : double := SpecFloat.SFsub prec emax x y.
(** [x <= y] on floats: false as soon as one side is NaN. *)
Definition fle (x y : double) : bool := SpecFloat.SFleb x y.

Definition is_finite (x : double) : bool :=
  match x with
  | SpecFloat.S754_zero _ | SpecFloat.S754_finite _ _ _ => true
  | _ => false
  end.

(** [float(n)] of an integer. *)
Definition Z2F (z : Z) : double := SpecFloat.binary_normalize prec emax z 0 false.

(** The double nearest to a rational (a correctly rounded quotient), as
    [float("100.05")] or a REAL column holds the decimal [100.05]. *)
Definition Q2F (q : Q) : double :=
  match Qnum q with
  | Z0 => SpecFloat.S754_zero false
  | Zpos n => SpecFloat.SFdiv prec emax (SpecFloat.S754_finite false n 0)
                (SpecFloat.S754_finite false (Qden q) 0)
  | Zneg n => SpecFloat.SFdiv prec emax (SpecFloat.S754_finite true n 0)
                (SpecFloat.S754_finite false (Qden q) 0)
  end.

(** The exact value of a finite double (0 for infinities and NaN). *)
Definition F2Q (x : double) : Q :=
  match x with
  | SpecFloat.S754_finite s m e =>
      let v := match e with
               | Zneg p => Zpos m # Pos.pow 2 p
               | _ => inject_Z (Zpos m * 2 ^ e)
               end in
      if s then (- v)%Q else v
  | _ => 0%Q
  end.

(** [round(x, 2)] of a float: CPython rounds the exact value of [x] half to
    even at two decimals and returns the double nearest to that decimal. *)
Definition round2_64 (x : double) : double :=
  if is_finite x then Q2F (round2 (F2Q x)) else x.

(* ------------------------------------------------------------------ *)
(** ** [approve_purchase] (financial_agent.py) *)

Record approval := mk_approval {
  approved : bool;
  ap_purchase_amount : Q;
  ap_current_balance : Q;
  ap_balance_after_purchase : Q;
  ap_available_for_purchase : Q;
  ap_minimum_balance : Q;
  ap_safety_margin_percent : Q
}.

Definition default_safety_margin : Q := 2 # 10.

(** [approve_purchase] with the amounts read exactly; its approval test
    under the float rounding of the source is [approve_purchase_at] below. *)
Definition approve_purchase (store : option ledger) (purchase_amount : Q)
    (date : string) (safety_margin : Q) : approval :=
  let current_balance := get_cash_balance store date in
  let minimum_balance := (current_balance * safety_margin)%Q in
  let available_for_purchase := (current_balance - minimum_balance)%Q in
  let balance_after_purchase := (current_balance - purchase_amount)%Q in
  let approved := Qle_bool purchase_amount available_for_purchase in
  {| approved := approved;
     ap_purchase_amount := round2 purchase_amount;
     ap_current_balance := round2 current_balance;
     ap_balance_after_purchase := round2 balance_after_purchase;
     ap_available_for_purchase := round2 available_for_purchase;
     ap_minimum_balance := round2 minimum_balance;
     ap_safety_margin_percent := (safety_margin * 100)%Q |}.

(** The body of [approve_purchase] after [current_balance =
    get_cash_balance(date)], with the float operations of the source: the
    balance [get_cash_balance] returned, the amount and the margin are
    doubles, [current_balance * safety_margin] and the subtractions are
    rounded to binary64, and [approved] is the float comparison [<=]. *)
Record approval64 := mk_approval64 {
  approved64 : bool;
  ap64_purchase_amount : double;
  ap64_current_balance : double;
  ap64_balance_after_purchase : double;
  ap64_available_for_purchase : double;
  ap64_minimum_balance : double;
  ap64_safety_margin_percent : double
}.

Definition approve_purchase_at (current_balance purchase_amount safety_margin : double)
    : approval64 :=
  let minimum_balance := fmul current_balance safety_margin in
  let available_for_purchase := fsub current_balance minimum_balance in
  let balance_after_purchase := fsub current_balance purchase_amount in
  let approved := fle purchase_amount available_for_purchase in
  {| approved64 := approved;
     ap64_purchase_amount := round2_64 purchase_amount;
     ap64_current_balance := round2_64 current_balance;
     ap64_balance_after_purchase := round2_64 balance_after_purchase;
     ap64_available_for_purchase := round2_64 available_for_purchase;
     ap64_minimum_balance := round2_64 minimum_balance;
     ap64_safety_margin_percent := fmul safety_margin (Z2F 100) |}.

(* ------------------------------------------------------------------ *)
(** ** ISO-8601 [YYYY-MM-DD] dates as the ledger stores them *)

Record date := mk_date { year : nat; month : nat; day : nat }.

Definition digit (n : nat) : ascii := ascii_of_nat (48 + n).

(** The [k] low decimal digits of [n], most significant first. *)
Fixpoint digits (k n : nat) : string :=
  match k with
  | O => EmptyString
  | S k' => (digits k' (n / 10) ++ String (digit (n mod 10)) EmptyString)%string
  end.

Definition iso_date (d : date) : string :=
  (digits 4 (year d) ++ String "-" (digits 2 (month d) ++ String "-" (digits 2 (day d))))%string.

(** The fields fit their widths (4, 2 and 2 digits). *)
Definition date_fmt_ok (d : date) : bool :=
  (Nat.ltb (year d) (10 ^ 4) && Nat.ltb (month d) (10 ^ 2) && Nat.ltb (day d) (10 ^ 2))%bool.

Definition date_cmp (d1 d2 : date) : comparison :=
  match Nat.compare (year d1) (year d2) with
  | Eq => match Nat.compare (month d1) (month d2) with
          | Eq => Nat.compare (day d1) (day d2)
          | c => c
          end
  | c => c
  end.

Definition date_leb (d1 d2 : date) : bool :=
  match date_cmp d1 d2 with Gt => false | _ => true end.

(** A ledger entry whose date is a calendar date; [to_row] is the row the
    table holds for it. *)
Record entry := mk_entry {
  e_item : option string;
  e_type : string;
  e_units : Z;
  e_price : Q;
  e_date : date
}.

Definition to_row (e : entry) : txn :=
  mk_txn (e_item e) (e_type e) (e_units e) (e_price e) (iso_date (e_date e)).

(** The derived views as the specification writes them. *)
Fixpoint sum_units (ty : string) (es : list entry) : Z :=
  match es with
  | [] => 0
  | e :: es' => (if String.eqb (e_type e) ty then e_units e else 0) + sum_units ty es'
  end.

Fixpoint sum_prices (ty : string) (es : list entry) : Q :=
  match es with
  | [] => 0%Q
  | e :: es' => ((if String.eqb (e_type e) ty then e_price e else 0) + sum_prices ty es')%Q
  end.

Definition spec_current_stock (db : list entry) (item : string) (as_of : date) : Z :=
  let w := filter (fun e => opt_str_eqb (e_item e) item && date_leb (e_date e) as_of) db in
  sum_units "stock_orders" w - sum_units "sales" w.

Definition spec_cash_balance (db : list entry) (as_of : date) : Q :=
  let w := filter (fun e => date_leb (e_date e) as_of) db in
  (sum_prices "sales" w - sum_prices "stock_orders" w)%Q.

(* ------------------------------------------------------------------ *)
(** ** [calculate_quote_price] (quoting_agent.py) *)

(** A line item is a Python dict read with [.get(key, default)]. *)
Record line_item := mk_line_item {
  li_item_name : option string;
  li_quantity : option Z;
  li_unit_price : option Q
}.

Record breakdown_row := mk_breakdown_row {
  br_item_name : string;
  br_quantity : Z;
  br_unit_price : Q;
  br_item_total : Q
}.

Record quote := mk_quote {
  subtotal : Q;
  discount_percent : Q;
  discount_amount : Q;
  total : Q;
  total_units : Z;
  breakdown : list breakdown_row
}.

Definition get_or {A : Type} (o : option A) (dflt : A) : A :=
  match o with Some x => x | None => dflt end.

(** One iteration of [for item in items_with_quantities]. *)
Definition quote_step (acc : Q * Z * list breakdown_row) (it : line_item)
    : Q * Z * list breakdown_row :=
  let '(subtotal, total_units, breakdown) := acc in
  let item_name := get_or (li_item_name it) "Unknown"%string in
  let quantity := get_or (li_quantity it) 0 in
  let unit_price := get_or (li_unit_price it) 0%Q in
  let item_total := (inject_Z quantity * unit_price)%Q in
  ((subtotal + item_total)%Q, total_units + quantity,
   breakdown ++ [mk_breakdown_row item_name quantity unit_price (round2 item_total)]).

Definition calculate_quote_price (items_with_quantities : list line_item) : quote :=
  match items_with_quantities with
  | [] => mk_quote 0 0 0 0 0 []
  | _ =>
      let '(subtotal, total_units, breakdown) :=
        fold_left quote_step items_with_quantities (0%Q, 0, []) in
      let discount_percent :=
        if total_units <=? 500 then 0%Q
        else if total_units <=? 1000 then 10%Q
        else 15%Q in
      let discount_amount := (subtotal * (discount_percent / 100))%Q in
      let total := (subtotal - discount_amount)%Q in
      mk_quote (round2 subtotal) discount_percent (round2 discount_amount)
               (round2 total) total_units breakdown
  end.

(** Sum of the quantities and of the line totals, with the [.get] defaults. *)
Definition quote_units (items : list line_item) : Z :=
  fold_right (fun it acc => get_or (li_quantity it) 0 + acc) 0 items.

Definition quote_sum (items : list line_item) : Q :=
  fold_right (fun it acc => inject_Z (get_or (li_quantity it) 0%Z)
                            * get_or (li_unit_price it) 0 + acc)%Q 0%Q items.

(* ------------------------------------------------------------------ *)
(** ** The [inventory] catalog, [get_item_price] and [check_restock_needed] *)

Record inv_row := mk_inv_row {
  inv_item_name : string;
  category : string;
  unit_price : Q;
  min_stock_level : Z
}.

Definition catalog := list inv_row.

(** [SELECT ... FROM inventory WHERE item_name = :item_name] *)
Definition lookup_rows (cat : catalog) (item : string) : catalog :=
  filter (fun r => String.eqb (inv_item_name r) item) cat.

(** [get_item_price] (inventory_agent.py) *)
Definition get_item_price (cat : catalog) (item : string) : Q :=
  match lookup_rows cat item with
  | [] => (-1)%Q
  | r :: _ => unit_price r
  end.

Record restock_report := mk_restock_report {
  rs_current_stock : Z;
  rs_min_stock_level : Z;
  rs_needs_restock : bool;
  rs_recommended_reorder_qty : Z;
  rs_estimated_reorder_cost : Q;
  rs_unit_price : Q
}.

Inductive restock_result :=
  | RestockNotInCatalog (current_stock : Z)   (* needs_restock False, "error" *)
  | RestockChecked (r : restock_report).

(** [check_restock_needed] (ordering_agent.py), the store working. *)
Definition check_restock_needed (db : ledger) (cat : catalog) (item : string)
    (date : string) : restock_result :=
  let current_stock := get_stock_level db item date in
  match lookup_rows cat item with
  | [] => RestockNotInCatalog current_stock
  | r :: _ =>
      let min_stock := min_stock_level r in
      let unit_price := unit_price r in
      let needs_restock := current_stock <? min_stock in
      (* [reorder_qty * unit_price]: an int times a float, in binary64 *)
      let '(reorder_qty, reorder_cost) :=
        if needs_restock
        then (min_stock * 2 - current_stock,
              fmul (Z2F (min_stock * 2 - current_stock)) (Q2F unit_price))
        else (0, Z2F 0) in
      (* [round(reorder_cost, 2)]: the decimal the returned float stands for *)
      RestockChecked (mk_restock_report current_stock min_stock needs_restock
                        reorder_qty (round2 (F2Q reorder_cost)) unit_price)
  end.

(* ------------------------------------------------------------------ *)
(** ** [process_customer_request] (orchestrator_agent.py) *)

(** How [orchestrator.run] ends: it returns (the [str] of its result), or
    raises; [except Exception] catches only subclasses of [Exception], not
    other [BaseException]s such as [KeyboardInterrupt] or [SystemExit]. *)
Inductive exc_class := IsException | BaseExceptionOnly.

Inductive run_outcome :=
  | Returned (response : string)
  | Raised (cls : exc_class) (message : string).

Inductive call_result :=
  | Returns (s : string)
  | Propagates (cls : exc_class) (message : string).

Definition nl : string := String (ascii_of_nat 10) EmptyString.

Definition apology_prefix : string :=
  "We apologize, but we encountered an error processing your request: ".

(** [f"{request}\n\n(Request date: {date})"] *)
Definition full_request (request date : string) : string :=
  (request ++ nl ++ nl ++ "(Request date: " ++ date ++ ")")%string.

Definition process_customer_request (run : string -> run_outcome)
    (request date : string) : call_result :=
  match run (full_request request date) with
  | Returned response => Returns response
  | Raised IsException e => Returns (apology_prefix ++ e)%string
  | Raised cls e => Propagates cls e
  end.

(* ------------------------------------------------------------------ *)
(** ** [create_transaction] (helpers.py) *)

(** The table with SQLite's implicit [rowid] of each row. *)
Record store := mk_store {
  st_rows : list (Z * txn);
  st_last_insert_rowid : Z   (* of the connection that did the last insert *)
}.

(** A table without AUTOINCREMENT gives a new row [max(rowid) + 1]. *)
Definition next_rowid (st : store) : Z :=
  1 + fold_right (fun r m => Z.max (fst r) m) 0 (st_rows st).

Inductive tx_result := TxId (id : Z) | TxValueError.

(** [pooled_same_connection]: the engine hands the [read_sql] that runs
    [SELECT last_insert_rowid()] the connection [to_sql] inserted with (a
    pooled engine does; a fresh connection answers 0). *)
Definition create_transaction (pooled_same_connection : bool) (st : store)
    (item_name : string) (transaction_type : string) (quantity : Z) (price : Q)
    (date : string) : tx_result * store :=
  if negb (String.eqb transaction_type "stock_orders"
           || String.eqb transaction_type "sales")
  then (TxValueError, st)                     (* raise ValueError(...) *)
  else
    let id := next_rowid st in
    let row := mk_txn (Some item_name) transaction_type quantity price date in
    let st' := mk_store (st_rows st ++ [(id, row)]) id in
    let result := if pooled_same_connection then st_last_insert_rowid st' else 0 in
    (TxId result, st').

(* ------------------------------------------------------------------ *)
(** ** The Evaluator loop ([EvaluationAgent.evaluate]) *)

Record verdict := mk_verdict { v_accepted : bool; v_reason : string }.

Record eval_round := mk_eval_round {
  attempt_index : nat;
  draft_response : string;
  round_verdict : verdict
}.

Record eval_result := mk_eval_result {
  final_response : string;
  rounds : list eval_round;
  accepted : bool
}.

Section Evaluator.
(** The wrapped handler and the judging oracle; both may answer
    differently in each round. *)
Variable respond : nat -> string -> string.
Variable judge : nat -> string -> verdict.

(** Modelled from the spec: [EvaluationAgent] (workflow_agents/base_agents.py,
    not among the sources), per section 4.3: DRAFT, JUDGE, then ACCEPT or
    REVISE with the caller's prompt followed by the rejection reason, until
    acceptance or [max_iterations] rounds; on exhaustion the last draft is
    returned with [accepted = false]. *)
Fixpoint eval_loop (fuel i : nat) (prompt current : string)
    (done_ : list eval_round) : eval_result :=
  match fuel with
  | O => mk_eval_result (last (map draft_response done_) EmptyString) done_ false
  | S fuel' =>
      let draft := respond i current in
      let v := judge i draft in
      let rs := done_ ++ [mk_eval_round i draft v] in
      if v_accepted v then mk_eval_result draft rs true
      else eval_loop fuel' (S i) prompt (prompt ++ v_reason v)%string rs
  end.

Definition evaluate (max_iterations : nat) (prompt : string) : eval_result :=
  eval_loop max_iterations 1 prompt prompt [].
End Evaluator.

(* ------------------------------------------------------------------ *)
(** ** Dates in Python's [datetime]: proleptic Gregorian ordinals *)

Definition is_leap (y : Z) : bool :=
  (Z.eqb (y mod 4) 0 && (negb (Z.eqb (y mod 100) 0) || Z.eqb (y mod 400) 0))%bool.

(** [_DAYS_IN_MONTH] *)
Definition days_in_month_tbl (m : Z) : Z :=
  match m with
  | 2 => 28
  | 4 | 6 | 9 | 11 => 30
  | _ => 31
  end.

Definition days_in_month (y m : Z) : Z :=
  if (m =? 2) && is_leap y then 29 else days_in_month_tbl m.

(** [_DAYS_BEFORE_MONTH] (index 0 unused). *)
Definition days_before_month_tbl (m : Z) : Z :=
  match m with
  | 1 => 0 | 2 => 31 | 3 => 59 | 4 => 90 | 5 => 120 | 6 => 151
  | 7 => 181 | 8 => 212 | 9 => 243 | 10 => 273 | 11 => 304 | 12 => 334
  | _ => 0
  end.

Definition days_before_year (y : Z) : Z :=
  let y' := y - 1 in y' * 365 + y' / 4 - y' / 100 + y' / 400.

Definition days_before_month (y m : Z) : Z :=
  days_before_month_tbl m + (if (2 <? m) && is_leap y then 1 else 0).

Definition ymd2ord (y m d : Z) : Z :=
  days_before_year y + days_before_month y m + d.

(** [_ord2ymd] *)
Definition ord2ymd (n0 : Z) : Z * Z * Z :=
  let n := n0 - 1 in
  let n400 := n / 146097 in let n := n mod 146097 in
  let year := n400 * 400 + 1 in
  let n100 := n / 36524 in let n := n mod 36524 in
  let n4 := n / 1461 in let n := n mod 1461 in
  let n1 := n / 365 in let n := n mod 365 in
  let year := year + n100 * 100 + n4 * 4 + n1 in
  if (n1 =? 4) || (n100 =? 4) then (year - 1, 12, 31)
  else
    let leapyear := (n1 =? 3) && (negb (n4 =? 24) || (n100 =? 3)) in
    let month := Z.shiftr (n + 50) 5 in
    let preceding := days_before_month_tbl month
                     + (if (2 <? month) && leapyear then 1 else 0) in
    let '(month, preceding) :=
      if n <? preceding
      then (month - 1, preceding - (days_in_month_tbl (month - 1) + (if (month - 1 =? 2) && leapyear then 1 else 0)))
      else (month, preceding) in
    (year, month, n - preceding + 1).

Definition MAXORDINAL : Z := 3652059.   (* date.max.toordinal() *)

(** [datetime.fromisoformat] on a 10-character [YYYY-MM-DD] string, with the
    range checks of the [datetime] constructor; the ordinal of the date. *)
Definition digit_val (c : ascii) : option Z :=
  let n := nat_of_ascii c in
  if (Nat.leb 48 n && Nat.leb n 57)%bool then Some (Z.of_nat n - 48) else None.

Fixpoint read_digits (k : nat) (s : string) : option (Z * string) :=
  match k with
  | O => Some (0, s)
  | S k' =>
      match s with
      | String c s' =>
          match digit_val c with
          | Some v =>
              match read_digits k' s' with
              | Some (w, rest) => Some (v * 10 ^ Z.of_nat k' + w, rest)
              | None => None
              end
          | None => None
          end
      | EmptyString => None
      end
  end.

(** [datetime.fromisoformat] on the [YYYY-MM-DD] form the ledger and the
    tools use. Only that form is embedded: on other strings the source may
    still parse a date (e.g. a date followed by a space and a time), so the
    statements below either assume it succeeds, where both give the same
    day, or hold whatever it returns. *)
Definition parse_iso_ordinal (s : string) : option Z :=
  match read_digits 4 s with
  | Some (y, String "-" r1) =>
      match read_digits 2 r1 with
      | Some (m, String "-" r2) =>
          match read_digits 2 r2 with
          | Some (d, EmptyString) =>
              if (1 <=? y) && (y <=? 9999) && (1 <=? m) && (m <=? 12)
                 && (1 <=? d) && (d <=? days_in_month y m)
              then Some (ymd2ord y m d) else None
          | _ => None
          end
      | _ => None
      end
  | _ => None
  end.

(** [input_date_str.split("T")[0]] *)
Fixpoint before_T (s : string) : string :=
  match s with
  | EmptyString => EmptyString
  | String c s' => if Ascii.eqb c "T"%char then EmptyString else String c (before_T s')
  end.

(** [strftime("%Y-%m-%d")] (glibc: [%Y] is not zero padded). *)
Fixpoint dec_string (fuel n : nat) : string :=
  match fuel with
  | O => EmptyString
  | S f => if Nat.ltb n 10 then String (digit n) EmptyString
           else (dec_string f (n / 10) ++ String (digit (n mod 10)) EmptyString)%string
  end.

Definition strftime_ymd (ord : Z) : string :=
  let '(y, m, d) := ord2ymd ord in
  (dec_string 5 (Z.to_nat y) ++ String "-" (digits 2 (Z.to_nat m)
     ++ String "-" (digits 2 (Z.to_nat d))))%string.

(** [get_supplier_delivery_date] (helpers.py). [today] is the ordinal of
    [datetime.now()], used when the date does not parse; [None] is the
    [OverflowError] of adding past [date.max]. *)
Definition supplier_days (quantity : Z) : Z :=
  if quantity <=? 10 then 0
  else if quantity <=? 100 then 1
  else if quantity <=? 1000 then 4
  else 7.

Definition get_supplier_delivery_date (today : Z) (input_date_str : string)
    (quantity : Z) : option string :=
  let input_date := match parse_iso_ordinal (before_T input_date_str) with
                    | Some o => o
                    | None => today
                    end in
  let days := supplier_days quantity in
  if input_date + days <=? MAXORDINAL
  then Some (strftime_ymd (input_date + days))
  else None.

(** [check_delivery_timeline] (ordering_agent.py) *)
Definition lead_time_days (quantity : Z) : Z :=
  if quantity <=? 10 then 0
  else if quantity <=? 100 then 1
  else if quantity <=? 1000 then 4
  else 7.

Record timeline := mk_timeline {
  tl_order_date : string;
  tl_delivery_date : string;
  tl_lead_time_days : Z;
  tl_quantity : Z
}.

Definition check_delivery_timeline (today : Z) (date : string) (quantity : Z)
    : option timeline :=
  match get_supplier_delivery_date today date quantity with
  | None => None                              (* except Exception: error dict *)
  | Some delivery_date =>
      Some (mk_timeline date delivery_date (lead_time_days quantity) quantity)
  end.

(* ------------------------------------------------------------------ *)
(** ** [get_all_inventory] (helpers.py) and the inventory tools *)

(** The rows [WHERE item_name IS NOT NULL AND transaction_date <= :as_of_date]. *)
Definition named_upto (db : ledger) (as_of : string) : ledger :=
  filter (fun t => match item_name t with Some _ => true | None => false end
                   && str_leb (transaction_date t) as_of) db.

Definition name_of (t : txn) : list string :=
  match item_name t with Some n => [n] | None => [] end.

(** [GROUP BY item_name]: one group per distinct name. *)
Definition group_names (rows : ledger) : list string :=
  nodup string_dec (flat_map name_of rows).

(** [SUM(CASE ... END) AS stock] over one group. *)
Definition group_stock (rows : ledger) (n : string) : Z :=
  fold_right (fun t acc => stock_case t + acc) 0
    (filter (fun t => opt_str_eqb (item_name t) n) rows).

(** [dict(zip(result["item_name"], result["stock"]))], the dict as an
    association list. *)
Definition get_all_inventory (db : ledger) (as_of_date : string) : list (string * Z) :=
  let as_of := pad_as_of as_of_date in
  let rows := named_upto db as_of in
  filter (fun p => 0 <? snd p)                          (* HAVING stock > 0 *)
    (map (fun n => (n, group_stock rows n)) (group_names rows)).

(** [d.get(k)] *)
Fixpoint dict_get (d : list (string * Z)) (k : string) : option Z :=
  match d with
  | [] => None
  | (k', v) :: d' => if String.eqb k' k then Some v else dict_get d' k
  end.

(** [check_all_inventory] (inventory_agent.py) *)
Definition check_all_inventory (db : ledger) (date : string) : list (string * Z) :=
  get_all_inventory db date.

(** The frame [get_stock_level] returns: an aggregate query without
    [GROUP BY] gives exactly one row, [(:item_name, current_stock)]. *)
Definition get_stock_level_frame (db : ledger) (item as_of_date : string)
    : list (string * Z) :=
  [(item, get_stock_level db item as_of_date)].

(** [check_item_stock] (inventory_agent.py) *)
Definition check_item_stock (db : ledger) (item date : string) : string * Z :=
  match get_stock_level_frame db item date with
  | [] => (item, 0)                                     (* result.empty *)
  | (n, current_stock) :: _ => (n, current_stock)
  end.

(** Python's [str.lower] on ASCII text. *)
Definition lower_ascii (c : ascii) : ascii :=
  let n := nat_of_ascii c in
  if (Nat.leb 65 n && Nat.leb n 90)%bool then ascii_of_nat (n + 32) else c.

Fixpoint lower (s : string) : string :=
  match s with
  | EmptyString => EmptyString
  | String c s' => String (lower_ascii c) (lower s')
  end.

(** [p in s] on strings. *)
Fixpoint prefixb (p s : string) : bool :=
  match p, s with
  | EmptyString, _ => true
  | String a p', String b s' => Ascii.eqb a b && prefixb p' s'
  | String _ _, EmptyString => false
  end.

Fixpoint containsb (p s : string) : bool :=
  prefixb p s || match s with EmptyString => false | String _ s' => containsb p s' end.

(** [Series.str.contains] takes its argument as a regular expression; one
    without metacharacters matches exactly where it occurs as a substring. *)
Definition regex_meta (c : ascii) : bool :=
  existsb (Ascii.eqb c)
    ["."; "^"; "$"; "*"; "+"; "?"; "{"; "}"; "["; "]"; "\"; "|"; "("; ")"]%char.

Fixpoint regex_literal (s : string) : bool :=
  match s with
  | EmptyString => true
  | String c s' => negb (regex_meta c) && regex_literal s'
  end.

(** [find_similar_items] (inventory_agent.py), for a search term that is a
    literal pattern ([regex_literal]). *)
Definition find_similar_items (cat : catalog) (search_term : string) : catalog :=
  filter (fun r => containsb (lower search_term) (lower (inv_item_name r))) cat.

(* ------------------------------------------------------------------ *)
(** ** [get_item_prices] (quoting_agent.py), [get_item_unit_price]
    (ordering_agent.py) *)

Record price_entry := mk_price_entry {
  pe_item_name : string;
  pe_unit_price : Q;
  pe_found : bool
}.

Definition get_item_prices (cat : catalog) (item_names : list string) : list price_entry :=
  map (fun n => match lookup_rows cat n with
                | [] => mk_price_entry n 0%Q false
                | r :: _ => mk_price_entry n (unit_price r) true
                end) item_names.

Inductive unit_price_result :=
  | PriceFound (item : string) (price : Q) (cat : string)
  | PriceNotFound (item : string).                      (* "found": False *)

Definition get_item_unit_price (cat : catalog) (item : string) : unit_price_result :=
  match lookup_rows cat item with
  | [] => PriceNotFound item
  | r :: _ => PriceFound item (unit_price r) (category r)
  end.

(* ------------------------------------------------------------------ *)
(** ** [process_sales_transaction], [process_stock_order_transaction]
    (ordering_agent.py) *)

Inductive tool_tx :=
  | TxRecorded (transaction_id : Z) (transaction_type : string)   (* "success": True *)
  | TxFailed.                                                      (* "success": False *)

Definition ledger_of (st : store) : ledger := map snd (st_rows st).

Definition process_sales_transaction (pooled_same_connection : bool) (st : store)
    (item : string) (quantity : Z) (price : Q) (date : string) : tool_tx * store :=
  match create_transaction pooled_same_connection st item "sales" quantity price date with
  | (TxId id, st') => (TxRecorded id "sales", st')
  | (TxValueError, st') => (TxFailed, st')
  end.

Definition process_stock_order_transaction (pooled_same_connection : bool) (st : store)
    (item : string) (quantity : Z) (price : Q) (date : string) : tool_tx * store :=
  match create_transaction pooled_same_connection st item "stock_orders" quantity price date with
  | (TxId id, st') => (TxRecorded id "stock_orders", st')
  | (TxValueError, st') => (TxFailed, st')
  end.

(* ------------------------------------------------------------------ *)
(** ** [generate_financial_report] (helpers.py) and the financial tools *)

Record summary_line := mk_summary_line {
  sl_item_name : string;
  sl_stock : Z;
  sl_unit_price : Q;
  sl_value : Q
}.

Record sales_group := mk_sales_group {
  sg_item_name : option string;
  sg_total_units : Z;
  sg_total_revenue : Q
}.

Record financial_report := mk_financial_report {
  fr_as_of_date : string;
  fr_cash_balance : Q;
  fr_inventory_value : Q;
  fr_total_assets : Q;
  fr_inventory_summary : list summary_line;
  fr_top_selling_products : list sales_group
}.

(** One iteration of [for _, item in inventory_df.iterrows()]. *)
Definition summary_of (db : ledger) (as_of_date : string) (item : inv_row) : summary_line :=
  let stock := get_stock_level db (inv_item_name item) as_of_date in
  mk_summary_line (inv_item_name item) stock (unit_price item)
                  (inject_Z stock * unit_price item)%Q.

(** [inventory_value += item_value], from [0.0]. *)
Definition inventory_total (summary : list summary_line) : Q :=
  fold_left (fun acc l => acc + sl_value l)%Q summary 0%Q.

(** [WHERE transaction_type = 'sales' AND transaction_date <= :date]: the
    date as passed, not padded to the end of the day. *)
Definition top_sales_rows (db : ledger) (date : string) : ledger :=
  filter (fun t => String.eqb (transaction_type t) "sales"
                   && str_leb (transaction_date t) date) db.

Definition opt_string_dec (x y : option string) : {x = y} + {x <> y}.
Proof. decide equality. apply string_dec. Defined.

(** [GROUP BY item_name] (the NULL names forming one group) with
    [SUM(units)], [SUM(price)]. *)
Definition sales_group_of (rows : ledger) (k : option string) : sales_group :=
  let g := filter (fun t => if opt_string_dec (item_name t) k then true else false) rows in
  mk_sales_group k (fold_right (fun t acc => units t + acc) 0 g)
                   (fold_right (fun t acc => price t + acc)%Q 0%Q g).

(** [ORDER BY total_revenue DESC]; SQLite leaves the order of ties open,
    this one keeps them in group order. *)
Fixpoint insert_by_revenue (g : sales_group) (l : list sales_group) : list sales_group :=
  match l with
  | [] => [g]
  | h :: t => if Qle_bool (sg_total_revenue g) (sg_total_revenue h)
              then h :: insert_by_revenue g t
              else g :: l
  end.

Definition top_sales (rows : ledger) : list sales_group :=
  firstn 5 (fold_right insert_by_revenue []
              (map (sales_group_of rows) (nodup opt_string_dec (map item_name rows)))).

(** [generate_financial_report], the store working. *)
Definition generate_financial_report (db : ledger) (cat : catalog) (as_of_date : string)
    : financial_report :=
  let cash := get_cash_balance (Some db) as_of_date in
  let inventory_summary := map (summary_of db as_of_date) cat in
  let inventory_value := inventory_total inventory_summary in
  mk_financial_report as_of_date cash inventory_value (cash + inventory_value)%Q
    inventory_summary (top_sales (top_sales_rows db as_of_date)).

(** [get_financial_report] (financial_agent.py) *)
Record report_view := mk_report_view {
  rv_as_of_date : string;
  rv_cash_balance : Q;
  rv_inventory_value : Q;
  rv_total_assets : Q;
  rv_inventory_count : nat;
  rv_top_selling_products : list sales_group;
  rv_inventory_summary : list summary_line
}.

Definition get_financial_report (db : ledger) (cat : catalog) (date : string) : report_view :=
  let report := generate_financial_report db cat date in
  mk_report_view (fr_as_of_date report) (round2 (fr_cash_balance report))
    (round2 (fr_inventory_value report)) (round2 (fr_total_assets report))
    (List.length (fr_inventory_summary report)) (fr_top_selling_products report)
    (fr_inventory_summary report).

(** [check_cash_balance] (financial_agent.py) *)
Record cash_view := mk_cash_view { cv_date : string; cv_cash_balance : Q }.

Definition check_cash_balance (store : option ledger) (date : string) : cash_view :=
  let balance := get_cash_balance store date in
  mk_cash_view date (round2 balance).

(** [calculate_financial_health] (financial_agent.py) *)
Inductive health := EXCELLENT | GOOD | FAIR | POOR.

Definition round3 (x : Q) : Q := (inject_Z (round_half_even (x * 1000)) / 1000)%Q.

Record health_view := mk_health_view {
  hv_date : string;
  hv_health_status : health;
  hv_cash_balance : Q;
  hv_inventory_value : Q;
  hv_total_assets : Q;
  hv_cash_to_assets_ratio : Q;
  hv_inventory_to_assets_ratio : Q
}.

Definition health_status_of (cash_ratio : Q) : health :=
  if Qle_bool (3 # 10) cash_ratio then EXCELLENT
  else if Qle_bool (2 # 10) cash_ratio then GOOD
  else if Qle_bool (1 # 10) cash_ratio then FAIR
  else POOR.

Definition calculate_financial_health (db : ledger) (cat : catalog) (date : string)
    : health_view :=
  let report := generate_financial_report db cat date in
  let cash := fr_cash_balance report in
  let inventory_value := fr_inventory_value report in
  let total_assets := fr_total_assets report in
  let '(cash_ratio, inventory_ratio) :=
    if negb (Qle_bool total_assets 0)                   (* total_assets > 0 *)
    then ((cash / total_assets)%Q, (inventory_value / total_assets)%Q)
    else (0%Q, 0%Q) in
  mk_health_view date (health_status_of cash_ratio) (round2 cash)
    (round2 inventory_value) (round2 total_assets)
    (round3 cash_ratio) (round3 inventory_ratio).

(* ------------------------------------------------------------------ *)
(** ** [search_quote_history] (helpers.py): the query it builds *)

Fixpoint join (sep : string) (l : list string) : string :=
  match l with
  | [] => EmptyString
  | [x] => x
  | x :: l' => (x ++ sep ++ join sep l')%string
  end.

Fixpoint enumerate {A : Type} (i : nat) (l : list A) : list (nat * A) :=
  match l with
  | [] => []
  | x :: l' => (i, x) :: enumerate (S i) l'
  end.

(** [f"term_{i}"] *)
Definition term_param (i : nat) : string := ("term_" ++ dec_string 20 i)%string.

Definition term_condition (i : nat) : string :=
  ("(LOWER(qr.response) LIKE :" ++ term_param i ++ " OR " ++
   "LOWER(q.quote_explanation) LIKE :" ++ term_param i ++ ")")%string.

Definition where_clause (search_terms : list string) : string :=
  match search_terms with
  | [] => "1=1"
  | _ => join " AND " (map (fun p => term_condition (fst p)) (enumerate 0 search_terms))
  end.

(** [params[param_name] = f"%{term.lower()}%"] *)
Definition quote_params (search_terms : list string) : list (string * string) :=
  map (fun p => (term_param (fst p), "%" ++ lower (snd p) ++ "%")%string)
      (enumerate 0 search_terms).

Definition query_head : string :=
  "
        SELECT
            qr.response AS original_request,
            q.total_amount,
            q.quote_explanation,
            q.job_type,
            q.order_size,
            q.event_type,
            q.order_date
        FROM quotes q
        JOIN quote_requests qr ON q.request_id = qr.id
        WHERE ".

Definition query_tail : string :=
  "
        ORDER BY q.order_date DESC
        LIMIT ".

(** The text handed to [conn.execute] ([limit] non-negative). *)
Definition search_quote_query (search_terms : list string) (limit : nat) : string :=
  (query_head ++ where_clause search_terms ++ query_tail ++ dec_string 20 limit ++ nl
   ++ "    ")%string.

(* ------------------------------------------------------------------ *)
(** ** [get_hardcoded_answer] (Agentic Workflows, starter.py) *)

Definition answer_gantt : string :=
  "Gantt charts are a type of project management tool that helps visualize the timeline of a project.".
Definition answer_agile : string :=
  "Agile is a project management methodology that emphasizes flexibility and adaptability.".
Definition answer_sprint : string :=
  "Sprints are short periods of time used in Agile project management to deliver a working product.".
Definition answer_critical_path : string :=
  "Critical path is the longest path through a project network diagram, representing the minimum time required to complete the project.".
Definition answer_milestone : string :=
  "Milestones are significant events or deliverables in a project that mark key progress or completion of a phase.".
Definition answer_project_management : string :=
  "Project management is the practice of planning, organizing, and managing resources to achieve specific goals and objectives.".
Definition answer_project : string :=
  "A project is a temporary endeavor with a defined beginning and end, undertaken to achieve a specific outcome.".
Definition answer_program : string :=
  "A program is a collection of projects and activities that are coordinated to achieve a common goal.".
Definition answer_project_manager : string :=
  "A project manager is a professional who oversees the planning, execution, and completion of a project.".
Definition answer_unknown : string :=
  "I don't know the answer to that question.".

Definition get_hardcoded_answer (question : string) : string :=
  let question := lower question in
  if containsb "gantt" question then answer_gantt
  else if containsb "agile" question then answer_agile
  else if containsb "sprint" question then answer_sprint
  else if containsb "critical path" question then answer_critical_path
  else if containsb "milestone" question then answer_milestone
  else if containsb "project management" question then answer_project_management
  else if containsb "project" question then answer_project
  else if containsb "program" question then answer_program
  else if containsb "project manager" question then answer_project_manager
  else answer_unknown.

(** The breakdown row [calculate_quote_price] appends for one line item. *)
Definition breakdown_of (it : line_item) : breakdown_row :=
  mk_breakdown_row (get_or (li_item_name it) "Unknown"%string) (get_or (li_quantity it) 0)
    (get_or (li_unit_price it) 0%Q)
    (round2 (inject_Z (get_or (li_quantity it) 0) * get_or (li_unit_price it) 0%Q)).

(* ------------------------------------------------------------------ *)
(** ** Lemmas: SQLite text order on ISO dates is calendar order *)

Lemma str_length_app (s t : string) :
  String.length (s ++ t) = (String.length s + String.length t)%nat.
Proof. induction s as [|a s IH]; simpl; auto. Qed.

Lemma str_app_assoc (s t u : string) : ((s ++ t) ++ u = s ++ (t ++ u))%string.
Proof. induction s as [|a s IH]; simpl; congruence. Qed.

Lemma str_cmp_app (s1 s2 t1 t2 : string) :
  String.length s1 = String.length s2 ->
  str_cmp (s1 ++ t1) (s2 ++ t2) =
  match str_cmp s1 s2 with Eq => str_cmp t1 t2 | c => c end.
Proof.
  revert s2; induction s1 as [|a s1 IH]; intros [|b s2] Hlen; simpl in *;
    try discriminate; auto.
  destruct (ascii_cmp a b); auto.
Qed.

Lemma str_cmp_refl (s : string) : str_cmp s s = Eq.
Proof.
  induction s as [|a s IH]; simpl; auto.
  unfold ascii_cmp; rewrite Nat.compare_refl; auto.
Qed.

Lemma length_digits (k n : nat) : String.length (digits k n) = k.
Proof.
  revert n; induction k as [|k IH]; intros n; simpl; auto.
  rewrite str_length_app, IH; simpl; lia.
Qed.

Lemma ascii_cmp_digit (a b : nat) :
  (a < 10)%nat -> (b < 10)%nat -> ascii_cmp (digit a) (digit b) = Nat.compare a b.
Proof.
  intros Ha Hb; unfold ascii_cmp, digit.
  rewrite !nat_ascii_embedding by lia.
  destruct (Nat.compare_spec a b) as [H|H|H].
  - apply Nat.compare_eq_iff; lia.
  - apply Nat.compare_lt_iff; lia.
  - apply Nat.compare_gt_iff; lia.
Qed.

Lemma compare_div_mod (n m : nat) :
  Nat.compare n m =
  match Nat.compare (n / 10) (m / 10) with
  | Eq => Nat.compare (n mod 10) (m mod 10)
  | c => c
  end.
Proof.
  pose proof (Nat.div_mod_eq n 10) as En. pose proof (Nat.div_mod_eq m 10) as Em.
  pose proof (Nat.mod_upper_bound n 10 ltac:(lia)) as Bn.
  pose proof (Nat.mod_upper_bound m 10 ltac:(lia)) as Bm.
  destruct (Nat.compare_spec (n / 10) (m / 10)) as [H|H|H].
  - destruct (Nat.compare_spec (n mod 10) (m mod 10)) as [H'|H'|H'].
    + apply Nat.compare_eq_iff; lia.
    + apply Nat.compare_lt_iff; lia.
    + apply Nat.compare_gt_iff; lia.
  - apply Nat.compare_lt_iff; lia.
  - apply Nat.compare_gt_iff; lia.
Qed.

Lemma str_cmp_single (a b : ascii) :
  str_cmp (String a EmptyString) (String b EmptyString) = ascii_cmp a b.
Proof. simpl. destruct (ascii_cmp a b); reflexivity. Qed.

Lemma str_cmp_digits (k n m : nat) :
  (n < 10 ^ k)%nat -> (m < 10 ^ k)%nat ->
  str_cmp (digits k n) (digits k m) = Nat.compare n m.
Proof.
  revert n m; induction k as [|k IH]; intros n m Hn Hm.
  - rewrite Nat.pow_0_r in Hn, Hm.
    replace n with 0%nat by lia. replace m with 0%nat by lia. reflexivity.
  - rewrite Nat.pow_succ_r' in Hn, Hm.
    change (str_cmp (digits k (n / 10) ++ String (digit (n mod 10)) EmptyString)
                    (digits k (m / 10) ++ String (digit (m mod 10)) EmptyString)
              = Nat.compare n m).
    rewrite str_cmp_app by (rewrite !length_digits; reflexivity).
    rewrite IH by (apply Nat.Div0.div_lt_upper_bound; lia).
    rewrite (compare_div_mod n m).
    destruct (Nat.compare (n / 10) (m / 10)); try reflexivity.
    rewrite str_cmp_single, ascii_cmp_digit by (apply Nat.mod_upper_bound; lia).
    reflexivity.
Qed.

Lemma str_cmp_cons_same (a : ascii) (s t : string) :
  str_cmp (String a s) (String a t) = str_cmp s t.
Proof. simpl. unfold ascii_cmp. rewrite Nat.compare_refl. reflexivity. Qed.

Lemma str_app_nil (s : string) : (s ++ EmptyString)%string = s.
Proof. induction s as [|a s IH]; simpl; congruence. Qed.

Lemma length_iso_date (d : date) : String.length (iso_date d) = 10%nat.
Proof.
  unfold iso_date. rewrite str_length_app, length_digits. cbn [String.length].
  rewrite str_length_app, length_digits. cbn [String.length].
  rewrite length_digits. reflexivity.
Qed.

Lemma str_cmp_iso (d1 d2 : date) (t1 t2 : string) :
  date_fmt_ok d1 = true -> date_fmt_ok d2 = true ->
  str_cmp (iso_date d1 ++ t1) (iso_date d2 ++ t2) =
  match date_cmp d1 d2 with Eq => str_cmp t1 t2 | c => c end.
Proof.
  unfold date_fmt_ok, iso_date, date_cmp.
  intros H1 H2. apply andb_prop in H1 as [H1 D1]. apply andb_prop in H1 as [Y1 M1].
  apply andb_prop in H2 as [H2 D2]. apply andb_prop in H2 as [Y2 M2].
  apply Nat.ltb_lt in Y1, M1, D1, Y2, M2, D2.
  rewrite !str_app_assoc.
  rewrite str_cmp_app by (rewrite !length_digits; reflexivity).
  rewrite str_cmp_digits by assumption.
  destruct (Nat.compare (year d1) (year d2)); try reflexivity.
  cbn [append]. rewrite ?str_app_assoc, str_cmp_cons_same.
  rewrite str_cmp_app by (rewrite !length_digits; reflexivity).
  rewrite str_cmp_digits by assumption.
  destruct (Nat.compare (month d1) (month d2)); try reflexivity.
  cbn [append]. rewrite ?str_app_assoc, str_cmp_cons_same.
  rewrite str_cmp_app by (rewrite !length_digits; reflexivity).
  rewrite str_cmp_digits by assumption.
  reflexivity.
Qed.

(** The ledger's date filter [transaction_date <= :as_of_date], after the
    end-of-day padding, is the calendar order on ISO dates. *)
Lemma dated_le_iso (d a : date) :
  date_fmt_ok d = true -> date_fmt_ok a = true ->
  str_leb (iso_date d) (pad_as_of (iso_date a)) = date_leb d a.
Proof.
  intros Hd Ha. unfold pad_as_of. rewrite length_iso_date. simpl Nat.eqb. cbv iota.
  unfold str_leb, date_leb.
  rewrite <- (str_app_nil (iso_date d)) at 1.
  rewrite str_cmp_iso by assumption.
  destruct (date_cmp d a); reflexivity.
Qed.

Lemma match_nil_fold {A B : Type} (f : A -> B -> B) (z : B) (l : list A) :
  match l with [] => z | _ => fold_right f z l end = fold_right f z l.
Proof. destruct l; reflexivity. Qed.

Lemma stock_fold_spec (db : list entry) (item : string) (a : date) :
  Forall (fun e => date_fmt_ok (e_date e) = true) db -> date_fmt_ok a = true ->
  fold_right (fun t acc => stock_case t + acc) 0
    (filter (fun t => opt_str_eqb (item_name t) item
                      && str_leb (transaction_date t) (pad_as_of (iso_date a)))
            (map to_row db))
  = spec_current_stock db item a.
Proof.
  intros Hdb Ha. unfold spec_current_stock.
  induction Hdb as [|e db He Hdb IH]; [reflexivity|].
  cbn [map filter].
  change (transaction_date (to_row e)) with (iso_date (e_date e)).
  change (item_name (to_row e)) with (e_item e).
  rewrite dated_le_iso by assumption.
  destruct (opt_str_eqb (e_item e) item && date_leb (e_date e) a); [|exact IH].
  cbn [fold_right sum_units]. rewrite IH. unfold stock_case.
  change (transaction_type (to_row e)) with (e_type e).
  change (units (to_row e)) with (e_units e).
  destruct (String.eqb (e_type e) "stock_orders") eqn:E1;
  destruct (String.eqb (e_type e) "sales") eqn:E2; try lia.
  apply String.eqb_eq in E1, E2. rewrite E1 in E2. discriminate.
Qed.

Lemma sum_price_spec (ty : string) (db : list entry) (a : date) :
  Forall (fun e => date_fmt_ok (e_date e) = true) db -> date_fmt_ok a = true ->
  (sum_price_of_type ty
     (filter (fun t => str_leb (transaction_date t) (pad_as_of (iso_date a))) (map to_row db))
   == sum_prices ty (filter (fun e => date_leb (e_date e) a) db))%Q.
Proof.
  intros Hdb Ha.
  induction Hdb as [|e db He Hdb IH]; [reflexivity|].
  cbn [map filter].
  change (transaction_date (to_row e)) with (iso_date (e_date e)).
  rewrite dated_le_iso by assumption.
  destruct (date_leb (e_date e) a); [|exact IH].
  unfold sum_price_of_type in *. cbn [fold_right sum_prices].
  change (transaction_type (to_row e)) with (e_type e).
  change (price (to_row e)) with (e_price e).
  destruct (String.eqb (e_type e) ty); rewrite IH; ring.
Qed.

(** Appending a row that the date filter drops changes neither view. *)
Lemma stock_append_outside (db : ledger) (r : txn) (item as_of : string) :
  str_leb (transaction_date r) (pad_as_of as_of) = false ->
  get_stock_level (db ++ [r]) item as_of = get_stock_level db item as_of.
Proof.
  intros Hr. unfold get_stock_level. rewrite filter_app. simpl.
  rewrite Hr, andb_false_r, app_nil_r. reflexivity.
Qed.

Lemma cash_append_outside (db : ledger) (r : txn) (as_of : string) :
  str_leb (transaction_date r) (pad_as_of as_of) = false ->
  get_cash_balance (Some (db ++ [r])) as_of = get_cash_balance (Some db) as_of.
Proof.
  intros Hr. unfold get_cash_balance. rewrite filter_app. simpl.
  rewrite Hr, app_nil_r. reflexivity.
Qed.

(* ------------------------------------------------------------------ *)
(** ** Lemmas: rounding and quote accumulation *)





Lemma quote_fold (items : list line_item) (s : Q) (u : Z) (b : list breakdown_row) :
  let '(s', u', _) := fold_left quote_step items (s, u, b) in
  (s' == s + quote_sum items)%Q /\ u' = u + quote_units items.
Proof.
  revert s u b; induction items as [|it items IH]; intros s u b.
  - simpl. split; [ring | lia].
  - cbn [fold_left]. unfold quote_step at 2.
    specialize (IH (s + inject_Z (get_or (li_quantity it) 0%Z) * get_or (li_unit_price it) 0)%Q
                   (u + get_or (li_quantity it) 0)
                   (b ++ [mk_breakdown_row (get_or (li_item_name it) "Unknown"%string)
                            (get_or (li_quantity it) 0) (get_or (li_unit_price it) 0%Q)
                            (round2 (inject_Z (get_or (li_quantity it) 0)
                                     * get_or (li_unit_price it) 0%Q))])).
    destruct (fold_left quote_step items _) as [[s' u'] b'].
    destruct IH as [H1 H2]. cbn [quote_sum quote_units fold_right].
    split; [rewrite H1; unfold quote_sum; ring | unfold quote_units in *; lia].
Qed.

Lemma lookup_rows_nil (cat : catalog) (item : string) :
  lookup_rows cat item = [] <-> ~ In item (map inv_item_name cat).
Proof.
  unfold lookup_rows. induction cat as [|r cat IH]; simpl; [tauto|].
  destruct (String.eqb (inv_item_name r) item) eqn:E.
  - apply String.eqb_eq in E. split; [discriminate | intros H; exfalso; tauto].
  - apply String.eqb_neq in E. rewrite IH. tauto.
Qed.

(** The rowid [create_transaction] gives a new row is not yet in the table. *)
Lemma le_fold_max (rows : list (Z * txn)) (x : Z) :
  In x (map fst rows) -> x <= fold_right (fun r m => Z.max (fst r) m) 0 rows.
Proof.
  induction rows as [|r rows IH]; simpl; [tauto|].
  intros [H|H]; [subst; lia | specialize (IH H); lia].
Qed.

Lemma next_rowid_fresh (st : store) : ~ In (next_rowid st) (map fst (st_rows st)).
Proof. intros H. apply le_fold_max in H. unfold next_rowid in H. lia. Qed.

(** [eval_loop] only appends rounds, at most one per unit of fuel, and
    reports the last draft. *)
Lemma eval_loop_spec (respond : nat -> string -> string) (judge : nat -> string -> verdict)
    (fuel i : nat) (prompt cur : string) (acc : list eval_round) :
  let r := eval_loop respond judge fuel i prompt cur acc in
  exists new : list eval_round,
    rounds r = (acc ++ new)%list /\ (List.length new <= fuel)%nat
    /\ (accepted r = true -> exists rs lr, new = (rs ++ [lr])%list
          /\ v_accepted (round_verdict lr) = true /\ final_response r = draft_response lr)
    /\ (accepted r = false -> List.length new = fuel
          /\ Forall (fun x => v_accepted (round_verdict x) = false) new
          /\ final_response r = last (map draft_response (acc ++ new)%list) EmptyString).
Proof.
  revert i cur acc; induction fuel as [|fuel IH]; intros i cur acc r.
  - exists []. subst r. cbn. rewrite app_nil_r.
    split; [reflexivity|]. split; [lia|]. split; [discriminate|].
    intros _. split; [reflexivity|]. split; [constructor | reflexivity].
  - subst r. cbn [eval_loop].
    destruct (v_accepted (judge i (respond i cur))) eqn:Hv.
    + exists [mk_eval_round i (respond i cur) (judge i (respond i cur))].
      cbn. split; [reflexivity|]. split; [lia|]. split; [|discriminate].
      intros _. exists [], (mk_eval_round i (respond i cur) (judge i (respond i cur))).
      split; [reflexivity|]. split; [exact Hv | reflexivity].
    + destruct (IH (S i) (prompt ++ v_reason (judge i (respond i cur)))%string
                  (acc ++ [mk_eval_round i (respond i cur) (judge i (respond i cur))]))
        as [new [Hr [Hlen [Hacc Hrej]]]].
      exists (mk_eval_round i (respond i cur) (judge i (respond i cur)) :: new).
      rewrite Hr, <- app_assoc. cbn [app List.length].
      split; [reflexivity|]. split; [lia|]. split.
      * intros Ha. destruct (Hacc Ha) as [rs [lr [Hn [Hl Hf]]]].
        exists (mk_eval_round i (respond i cur) (judge i (respond i cur)) :: rs), lr.
        rewrite Hn. split; [reflexivity|]. split; assumption.
      * intros Ha. destruct (Hrej Ha) as [Hl [Hall Hf]].
        split; [lia|]. split; [constructor; assumption|].
        rewrite Hf, <- app_assoc. reflexivity.
Qed.


(* ------------------------------------------------------------------ *)
(** ** Lemmas: the inventory snapshot and the ledger views *)

Lemma filter_filter_and {A : Type} (f g : A -> bool) (l : list A) :
  filter g (filter f l) = filter (fun x => f x && g x) l.
Proof.
  induction l as [|a l IH]; simpl; [reflexivity|].
  destruct (f a); simpl; [destruct (g a)|]; congruence.
Qed.

Lemma dict_get_having (f : string -> Z) (ns : list string) (k : string) :
  dict_get (filter (fun p => 0 <? snd p) (map (fun n => (n, f n)) ns)) k
  = if existsb (String.eqb k) ns then (if 0 <? f k then Some (f k) else None) else None.
Proof.
  induction ns as [|n ns IH]; [reflexivity|].
  cbn [map filter existsb snd]. destruct (0 <? f n) eqn:Hp.
  - cbn [dict_get]. destruct (String.eqb n k) eqn:E.
    + apply String.eqb_eq in E. subst n. rewrite String.eqb_refl, Hp. reflexivity.
    + rewrite IH, String.eqb_sym, E. reflexivity.
  - rewrite IH. destruct (String.eqb k n) eqn:E; [|reflexivity].
    apply String.eqb_eq in E. subst n. rewrite Hp.
    destruct (existsb _ ns); reflexivity.
Qed.

Lemma group_stock_named (db : ledger) (item as_of : string) :
  group_stock (named_upto db as_of) item
  = fold_right (fun t acc => stock_case t + acc) 0
      (filter (fun t => opt_str_eqb (item_name t) item
                        && str_leb (transaction_date t) as_of) db).
Proof.
  unfold group_stock, named_upto. rewrite filter_filter_and. f_equal.
  apply filter_ext. intros t. unfold opt_str_eqb.
  destruct (item_name t); simpl; [|reflexivity].
  destruct (str_leb _ _), (String.eqb _ _); reflexivity.
Qed.

Lemma group_stock_absent (rows : ledger) (item : string) :
  existsb (String.eqb item) (group_names rows) = false -> group_stock rows item = 0.
Proof.
  intros H.
  assert (Hn : ~ In item (flat_map name_of rows)).
  { intros Hin. apply (nodup_In string_dec) in Hin.
    assert (existsb (String.eqb item) (group_names rows) = true) as Ht
      by (apply existsb_exists; exists item; split; [exact Hin | apply String.eqb_refl]).
    congruence. }
  clear H. unfold group_stock.
  induction rows as [|t rows IH]; [reflexivity|].
  cbn [flat_map] in Hn. rewrite in_app_iff in Hn.
  cbn [filter]. unfold opt_str_eqb at 1.
  unfold name_of in Hn. destruct (item_name t) as [n|].
  - destruct (String.eqb n item) eqn:E.
    + apply String.eqb_eq in E. subst n. exfalso. apply Hn. left. left. reflexivity.
    + apply IH. tauto.
  - apply IH. tauto.
Qed.

(** The snapshot lists an item exactly when its stock level is positive,
    with that level. *)
Lemma inventory_lookup (db : ledger) (item as_of_date : string) :
  dict_get (get_all_inventory db as_of_date) item
  = if 0 <? get_stock_level db item as_of_date
    then Some (get_stock_level db item as_of_date) else None.
Proof.
  unfold get_all_inventory, get_stock_level. cbv zeta.
  rewrite dict_get_having, match_nil_fold, group_stock_named.
  destruct (existsb _ _) eqn:Ex; [reflexivity|].
  apply group_stock_absent in Ex. rewrite group_stock_named in Ex.
  rewrite Ex. reflexivity.
Qed.

Lemma fold_stock_shift (l : ledger) (z : Z) :
  fold_right (fun t acc => stock_case t + acc) z l
  = fold_right (fun t acc => stock_case t + acc) 0 l + z.
Proof. induction l as [|t l IH]; simpl; lia. Qed.

(** A row the view selects adds its signed units. *)
Lemma stock_append_inside (db : ledger) (r : txn) (item as_of : string) :
  (opt_str_eqb (item_name r) item && str_leb (transaction_date r) (pad_as_of as_of)) = true ->
  get_stock_level (db ++ [r]) item as_of = get_stock_level db item as_of + stock_case r.
Proof.
  intros Hr. unfold get_stock_level. cbv zeta. rewrite filter_app. cbn [filter].
  rewrite Hr, !match_nil_fold, fold_right_app. cbn [fold_right].
  rewrite fold_stock_shift. lia.
Qed.

Lemma stock_append_other (db : ledger) (r : txn) (item as_of : string) :
  opt_str_eqb (item_name r) item = false ->
  get_stock_level (db ++ [r]) item as_of = get_stock_level db item as_of.
Proof.
  intros Hr. unfold get_stock_level. cbv zeta. rewrite filter_app. cbn [filter].
  rewrite Hr, andb_false_l, app_nil_r. reflexivity.
Qed.

Lemma sum_price_app (ty : string) (l : ledger) (r : txn) :
  (sum_price_of_type ty (l ++ [r])
   == sum_price_of_type ty l + (if String.eqb (transaction_type r) ty then price r else 0))%Q.
Proof.
  unfold sum_price_of_type. induction l as [|t l IH]; cbn [app fold_right].
  - destruct (String.eqb _ _); ring.
  - destruct (String.eqb (transaction_type t) ty); rewrite IH; ring.
Qed.

Lemma cash_sum_form (l : ledger) :
  (match l with
   | [] => 0%Q
   | _ => (sum_price_of_type "sales" l - sum_price_of_type "stock_orders" l)%Q
   end == sum_price_of_type "sales" l - sum_price_of_type "stock_orders" l)%Q.
Proof. destruct l; [reflexivity | apply Qeq_refl]. Qed.

(** A row the cash view selects adds its price as a sale or takes it as a
    stock order. *)
Lemma cash_append_inside (db : ledger) (r : txn) (as_of : string) :
  str_leb (transaction_date r) (pad_as_of as_of) = true ->
  (get_cash_balance (Some (db ++ [r])) as_of
   == get_cash_balance (Some db) as_of
      + (if String.eqb (transaction_type r) "sales" then price r else 0)
      - (if String.eqb (transaction_type r) "stock_orders" then price r else 0))%Q.
Proof.
  intros Hr. unfold get_cash_balance. cbv zeta. rewrite filter_app. cbn [filter].
  rewrite Hr. rewrite !cash_sum_form, !sum_price_app. ring.
Qed.

Lemma ledger_of_create (pooled : bool) (st : store) (item ty : string) (q : Z) (p : Q)
    (date : string) :
  (String.eqb ty "stock_orders" || String.eqb ty "sales")%bool = true ->
  ledger_of (snd (create_transaction pooled st item ty q p date))
  = ledger_of st ++ [mk_txn (Some item) ty q p date].
Proof.
  intros H. unfold create_transaction. rewrite H. cbn [negb snd].
  unfold ledger_of. cbn [st_rows]. rewrite map_app. reflexivity.
Qed.

(* ------------------------------------------------------------------ *)
(** ** Lemmas: text *)

Lemma str_cmp_extend (d s : string) :
  s <> EmptyString -> str_cmp (d ++ s) d = Gt.
Proof.
  intros Hs. rewrite <- (str_app_nil d) at 2.
  rewrite str_cmp_app by reflexivity. rewrite str_cmp_refl.
  destruct s; [contradiction | reflexivity].
Qed.

Lemma str_cmp_same_prefix (d s t : string) :
  str_cmp (d ++ s) (d ++ t) = str_cmp s t.
Proof. rewrite str_cmp_app by reflexivity. rewrite str_cmp_refl. reflexivity. Qed.

Lemma lower_app (s t : string) : lower (s ++ t) = (lower s ++ lower t)%string.
Proof. induction s as [|c s IH]; simpl; congruence. Qed.

Lemma lower_ascii_idem (c : ascii) : lower_ascii (lower_ascii c) = lower_ascii c.
Proof.
  unfold lower_ascii. set (n := nat_of_ascii c).
  assert (Hn : (n < 256)%nat) by apply nat_ascii_bounded.
  destruct (Nat.leb 65 n && Nat.leb n 90)%bool eqn:E.
  - apply andb_true_iff in E. destruct E as [E1 E2].
    apply Nat.leb_le in E1, E2.
    rewrite nat_ascii_embedding by lia.
    replace (Nat.leb (n + 32) 90) with false by (symmetry; apply Nat.leb_gt; lia).
    rewrite andb_false_r. reflexivity.
  - fold n. rewrite E. reflexivity.
Qed.

Lemma lower_idem (s : string) : lower (lower s) = lower s.
Proof. induction s as [|c s IH]; simpl; [reflexivity|]. rewrite lower_ascii_idem, IH. reflexivity. Qed.

Lemma prefixb_app_l (p q s : string) : prefixb (p ++ q) s = true -> prefixb p s = true.
Proof.
  revert s; induction p as [|a p IH]; intros s H; [reflexivity|].
  destruct s as [|b s]; simpl in *; [discriminate|].
  apply andb_true_iff in H. destruct H as [H1 H2]. rewrite H1. simpl. apply IH, H2.
Qed.

Lemma containsb_app_l (p q s : string) : containsb (p ++ q) s = true -> containsb p s = true.
Proof.
  induction s as [|b s IH]; intros H; simpl in *.
  - rewrite orb_false_r in *. apply prefixb_app_l with q. exact H.
  - apply orb_true_iff in H. destruct H as [H|H].
    + rewrite (prefixb_app_l p q _ H). reflexivity.
    + rewrite (IH H), orb_true_r. reflexivity.
Qed.

Lemma prefixb_self (q u : string) : prefixb q (q ++ u) = true.
Proof.
  induction q as [|a q IH]; simpl; [reflexivity|]. rewrite Ascii.eqb_refl. exact IH.
Qed.

Lemma containsb_prefix (p s : string) : prefixb p s = true -> containsb p s = true.
Proof. intros H. destruct s; simpl; rewrite H; reflexivity. Qed.

Lemma containsb_middle (p q u : string) : containsb q (p ++ q ++ u) = true.
Proof.
  induction p as [|a p IH].
  - change (containsb q (q ++ u) = true). apply containsb_prefix, prefixb_self.
  - simpl. rewrite IH, orb_true_r. reflexivity.
Qed.

Lemma before_T_prefix (s r : string) :
  before_T s = s -> before_T (s ++ String "T" r) = s.
Proof.
  induction s as [|c s IH]; intros H; simpl in *.
  - reflexivity.
  - destruct (Ascii.eqb c "T"%char); [discriminate|].
    injection H as H. rewrite (IH H). reflexivity.
Qed.

(* ------------------------------------------------------------------ *)
(** ** Lemmas: enumerated query parts and line items *)

Lemma enumerate_fst {A B : Type} (f : nat -> B) (i : nat) (l : list A) :
  map (fun p => f (fst p)) (enumerate i l) = map f (seq i (List.length l)).
Proof. revert i; induction l as [|x l IH]; intros i; simpl; [reflexivity|]. rewrite IH. reflexivity. Qed.

Lemma enumerate_snd {A B : Type} (f : A -> B) (i : nat) (l : list A) :
  map (fun p => f (snd p)) (enumerate i l) = map f l.
Proof. revert i; induction l as [|x l IH]; intros i; simpl; [reflexivity|]. rewrite IH. reflexivity. Qed.

Lemma quote_fold_breakdown (items : list line_item) (s : Q) (u : Z) (b : list breakdown_row) :
  snd (fold_left quote_step items (s, u, b)) = (b ++ map breakdown_of items)%list.
Proof.
  revert s u b; induction items as [|it items IH]; intros s u b.
  - simpl. rewrite app_nil_r. reflexivity.
  - cbn [fold_left map]. unfold quote_step at 2. rewrite IH, <- app_assoc. reflexivity.
Qed.

Lemma quote_units_perm (l1 l2 : list line_item) :
  Permutation l1 l2 -> quote_units l1 = quote_units l2.
Proof. unfold quote_units. induction 1; cbn [fold_right]; lia. Qed.

Lemma containsb_nil (s : string) : containsb EmptyString s = true.
Proof. destruct s; reflexivity. Qed.

(* ------------------------------------------------------------------ *)
(** ** Lemmas: binary64 operations on finite operands never give NaN *)

Lemma shr_1_nonneg (r : SpecFloat.shr_record) :
  0 <= SpecFloat.shr_m r -> 0 <= SpecFloat.shr_m (SpecFloat.shr_1 r).
Proof.
  destruct r as [m rr ss]. cbn [SpecFloat.shr_m]. intros H.
  destruct m as [|p|p]; [cbn; lia| |lia]. destruct p; cbn; lia.
Qed.

Lemma iter_shr_1_nonneg (p : positive) : forall r,
  0 <= SpecFloat.shr_m r -> 0 <= SpecFloat.shr_m (SpecFloat.iter_pos SpecFloat.shr_1 p r).
Proof.
  induction p as [p IH|p IH|]; intros r H; cbn [SpecFloat.iter_pos].
  - apply IH, IH, shr_1_nonneg, H.
  - apply IH, IH, H.
  - apply shr_1_nonneg, H.
Qed.

Lemma shr_fexp_nonneg (m e : Z) (l : SpecFloat.location) :
  0 <= m -> 0 <= SpecFloat.shr_m (fst (SpecFloat.shr_fexp prec emax m e l)).
Proof.
  intros H. unfold SpecFloat.shr_fexp, SpecFloat.shr.
  assert (H0 : 0 <= SpecFloat.shr_m (SpecFloat.shr_record_of_loc m l))
    by (destruct l as [|[| |]]; exact H).
  destruct (_ - e); [exact H0 | apply iter_shr_1_nonneg, H0 | exact H0].
Qed.

Lemma binary_round_aux_not_nan (sx : bool) (mx ex : Z) (lx : SpecFloat.location) :
  0 <= mx -> SpecFloat.binary_round_aux prec emax sx mx ex lx <> SpecFloat.S754_nan.
Proof.
  intros H. unfold SpecFloat.binary_round_aux.
  pose proof (shr_fexp_nonneg mx ex lx H) as H1.
  destruct (SpecFloat.shr_fexp prec emax mx ex lx) as [mrs' e'] eqn:E1. cbn [fst] in H1.
  assert (H2 : 0 <= SpecFloat.round_nearest_even (SpecFloat.shr_m mrs')
                      (SpecFloat.loc_of_shr_record mrs')).
  { unfold SpecFloat.round_nearest_even.
    destruct (SpecFloat.loc_of_shr_record mrs') as [|[| |]];
      try destruct (Z.even _); lia. }
  pose proof (shr_fexp_nonneg _ e' SpecFloat.loc_Exact H2) as H3.
  destruct (SpecFloat.shr_fexp prec emax _ e' SpecFloat.loc_Exact) as [mrs'' e''].
  cbn [fst] in H3.
  destruct (SpecFloat.shr_m mrs''); [discriminate| |lia].
  destruct (e'' <=? emax - prec); discriminate.
Qed.

Lemma binary_normalize_not_nan (m e : Z) (szero : bool) :
  SpecFloat.binary_normalize prec emax m e szero <> SpecFloat.S754_nan.
Proof.
  unfold SpecFloat.binary_normalize, SpecFloat.binary_round.
  destruct m as [|p|p]; [discriminate| |];
    destruct (SpecFloat.shl_align _ _ _) as [mz ez];
    apply binary_round_aux_not_nan; lia.
Qed.

Lemma fmul_not_nan (x y : double) :
  is_finite x = true -> is_finite y = true -> fmul x y <> SpecFloat.S754_nan.
Proof.
  intros Hx Hy. unfold fmul, SpecFloat.SFmul.
  destruct x; try discriminate; destruct y; try discriminate.
  apply binary_round_aux_not_nan. lia.
Qed.

Lemma fsub_not_nan (x y : double) :
  is_finite x = true -> y <> SpecFloat.S754_nan -> fsub x y <> SpecFloat.S754_nan.
Proof.
  intros Hx Hy. unfold fsub, SpecFloat.SFsub.
  destruct x as [sx|sx| |sx mx ex]; try discriminate;
    destruct y as [sy|sy| |sy my ey]; try contradiction;
    try (destruct sx, sy; discriminate); try discriminate.
  apply binary_normalize_not_nan.
Qed.

Lemma fle_refl (x : double) : x <> SpecFloat.S754_nan -> fle x x = true.
Proof.
  intros H. unfold fle, SpecFloat.SFleb, SpecFloat.SFcompare.
  destruct x as [s|s| |s m e]; [reflexivity|destruct s; reflexivity|contradiction|].
  rewrite Z.compare_refl. change (Pos.compare_cont Eq m m) with (Pos.compare m m).
  rewrite Pos.compare_refl. destruct s; reflexivity.
Qed.

(* ------------------------------------------------------------------ *)
(** ** Claims *)

(** C1, counterexample: with the float arithmetic of the source the
    approval test is [purchase_amount <= b - b * m] rounded to binary64, not
    [purchase_amount <= b * (1 - m)]. A ledger holding one sale of 100.05
    has balance 100.05; at the default margin 0.2 a purchase of 80.04 is
    rejected ([available_for_purchase] is 80.03999999999999) though
    80.04 <= 100.05 * 0.8; and on a balance of 0.15 a purchase of 0.12 is
    approved though the double 0.12 exceeds the double 0.15 times
    (1 - the double 0.2). *)
Lemma approve_purchase_rounding_boundary :
  let m := Q2F default_safety_margin in
  (get_cash_balance (Some [mk_txn None "sales" 0 (10005 # 100) "2025-01-01"]) "2025-01-01"
     == 10005 # 100)%Q
  /\ approved64 (approve_purchase_at (Q2F (10005 # 100)) (Q2F (8004 # 100)) m) = false
  /\ (8004 # 100 <= (10005 # 100) * (1 - default_safety_margin))%Q
  /\ approved64 (approve_purchase_at (Q2F (15 # 100)) (Q2F (12 # 100)) m) = true
  /\ ~ (F2Q (Q2F (12 # 100)) <= F2Q (Q2F (15 # 100)) * (1 - F2Q m))%Q.
Proof.
  intros m. split; [vm_compute; reflexivity|]. split; [vm_compute; reflexivity|].
  split; [vm_compute; discriminate|]. split; [vm_compute; reflexivity|].
  vm_compute. intros H. apply H. reflexivity.
Qed.

(** C1 (amended): with [b] the float [get_cash_balance] returned and [m] the
    safety margin, [approve_purchase] approves exactly when
    [purchase_amount <= available_for_purchase] as floats, where
    [available_for_purchase] is [b - b * m] with both operations rounded to
    binary64; when [b] and [m] are finite, a purchase of exactly
    [available_for_purchase] is approved. *)
Theorem approve_purchase_float_test (current_balance purchase_amount safety_margin : double) :
  let available_for_purchase := fsub current_balance (fmul current_balance safety_margin) in
  (approved64 (approve_purchase_at current_balance purchase_amount safety_margin) = true
   <-> fle purchase_amount available_for_purchase = true)
  /\ ap64_available_for_purchase (approve_purchase_at current_balance purchase_amount safety_margin)
     = round2_64 available_for_purchase
  /\ (is_finite current_balance = true -> is_finite safety_margin = true ->
      approved64 (approve_purchase_at current_balance available_for_purchase safety_margin)
      = true).
Proof.
  intros available_for_purchase. split; [reflexivity|]. split; [reflexivity|].
  intros Hb Hm. unfold approve_purchase_at. cbn [approved64]. fold available_for_purchase.
  apply fle_refl. apply fsub_not_nan; [exact Hb|]. apply fmul_not_nan; assumption.
Qed.

(** Witness for C1: the balance 100.05 at the default margin. *)
Lemma approve_purchase_float_test_witness :
  let b := Q2F (10005 # 100) in
  let m := Q2F default_safety_margin in
  (is_finite b = true /\ is_finite m = true)
  /\ approved64 (approve_purchase_at b (fsub b (fmul b m)) m) = true.
Proof.
  intros b m.
  assert (Hb : is_finite b = true) by (vm_compute; reflexivity).
  assert (Hm : is_finite m = true) by (vm_compute; reflexivity).
  split; [split; assumption|].
  exact (proj2 (proj2 (approve_purchase_float_test b b m)) Hb Hm).
Defined.

(** C2: on a ledger of ISO [YYYY-MM-DD] dates, [get_stock_level] is
    stock_orders units minus sales units of the item dated on or before the
    as-of date (0 with no rows), [get_cash_balance] is sales prices minus
    stock_orders prices dated on or before it, and appending a transaction
    dated strictly after the as-of date changes neither. *)
Theorem ledger_views_as_of (db : list entry) (item : string) (as_of : date) :
  Forall (fun e => date_fmt_ok (e_date e) = true) db ->
  date_fmt_ok as_of = true ->
  get_stock_level (map to_row db) item (iso_date as_of) = spec_current_stock db item as_of
  /\ (get_cash_balance (Some (map to_row db)) (iso_date as_of) == spec_cash_balance db as_of)%Q
  /\ (forall e, date_fmt_ok (e_date e) = true -> date_cmp (e_date e) as_of = Gt ->
        get_stock_level (map to_row (db ++ [e])) item (iso_date as_of)
          = get_stock_level (map to_row db) item (iso_date as_of)
        /\ get_cash_balance (Some (map to_row (db ++ [e]))) (iso_date as_of)
          = get_cash_balance (Some (map to_row db)) (iso_date as_of)).
Proof.
  intros Hdb Ha. split; [|split].
  - unfold get_stock_level. rewrite match_nil_fold. apply stock_fold_spec; assumption.
  - unfold get_cash_balance, spec_cash_balance.
    rewrite <- !(sum_price_spec _ db as_of Hdb Ha).
    destruct (filter _ (map to_row db)); [reflexivity|]. reflexivity.
  - intros e He Hgt.
    assert (Hr : str_leb (transaction_date (to_row e)) (pad_as_of (iso_date as_of)) = false).
    { change (transaction_date (to_row e)) with (iso_date (e_date e)).
      rewrite dated_le_iso by assumption. unfold date_leb. rewrite Hgt. reflexivity. }
    rewrite map_app. cbn [map].
    split; [apply stock_append_outside | apply cash_append_outside]; exact Hr.
Qed.

(** Witness for C2, on spec scenario 1: one [stock_orders] of 1000 units of
    A4 paper on 2025-01-01 gives a stock of 1000 as of 2025-01-02. *)
Lemma ledger_views_as_of_witness :
  let db := [mk_entry (Some "A4 paper"%string) "stock_orders" 1000 (50 # 1)
               (mk_date 2025 1 1)] in
  let as_of := mk_date 2025 1 2 in
  (Forall (fun e => date_fmt_ok (e_date e) = true) db /\ date_fmt_ok as_of = true)
  /\ get_stock_level (map to_row db) "A4 paper" (iso_date as_of) = 1000
  /\ get_stock_level (map to_row db) "A4 paper" (iso_date as_of)
     = spec_current_stock db "A4 paper" as_of.
Proof.
  intros db as_of.
  assert (Hdb : Forall (fun e => date_fmt_ok (e_date e) = true) db)
    by (repeat constructor).
  assert (Ha : date_fmt_ok as_of = true) by reflexivity.
  split; [split; assumption | split].
  - vm_compute. reflexivity.
  - exact (proj1 (ledger_views_as_of db "A4 paper" as_of Hdb Ha)).
Defined.



(** C9: when the transactions query raises, or returns no row up to the
    date, [get_cash_balance] is 0; [approve_purchase] then answers exactly as
    on an empty ledger, and rejects every positive purchase. *)
Theorem cash_balance_failure_is_zero (date : string) (purchase_amount safety_margin : Q) :
  get_cash_balance None date = 0%Q
  /\ (forall db, filter (fun t => str_leb (transaction_date t) (pad_as_of date)) db = [] ->
        get_cash_balance (Some db) date = 0%Q)
  /\ approve_purchase None purchase_amount date safety_margin
     = approve_purchase (Some []) purchase_amount date safety_margin
  /\ ((0 < purchase_amount)%Q ->
      approved (approve_purchase None purchase_amount date safety_margin) = false).
Proof.
  split; [reflexivity|]. split; [|split; [reflexivity|]].
  - intros db H. unfold get_cash_balance. rewrite H. reflexivity.
  - intros Hpos. unfold approve_purchase. cbn [approved get_cash_balance].
    destruct (Qle_bool purchase_amount (0 - 0 * safety_margin)) eqn:E; [|reflexivity].
    apply Qle_bool_iff in E.
    assert (Z0 : (0 - 0 * safety_margin == 0)%Q) by ring. rewrite Z0 in E.
    exfalso. apply (Qlt_not_le _ _ Hpos E).
Qed.

(** C10: [get_item_price] returns the sentinel [-1.0] for a name not in the
    catalog; when every catalog price is nonnegative, a negative result
    means exactly that the item is not in the catalog. *)
Theorem get_item_price_sentinel (cat : catalog) (item : string) :
  (~ In item (map inv_item_name cat) -> get_item_price cat item = (-1)%Q)
  /\ (Forall (fun r => (0 <= unit_price r)%Q) cat ->
      ((get_item_price cat item < 0)%Q <-> ~ In item (map inv_item_name cat))).
Proof.
  split.
  - intros H. apply lookup_rows_nil in H. unfold get_item_price. rewrite H. reflexivity.
  - intros Hpos. rewrite <- lookup_rows_nil. unfold get_item_price.
    destruct (lookup_rows cat item) as [|r rest] eqn:E.
    + split; [reflexivity | intros _; reflexivity].
    + assert (Hin : In r cat).
      { assert (In r (lookup_rows cat item)) by (rewrite E; left; reflexivity).
        unfold lookup_rows in H. apply filter_In in H. tauto. }
      rewrite Forall_forall in Hpos. specialize (Hpos r Hin).
      split; [intros Hlt; exfalso; apply (Qlt_not_le _ _ Hlt Hpos) | discriminate].
Qed.

(** C8, counterexample: [estimated_reorder_cost] is not the reorder
    quantity times the unit price. An item priced 0.123 with minimum stock
    1 and no stock is reordered 2 units at a cost of 0.25, the product
    0.246 rounded to cents; and an item priced 0.005 with minimum stock 2
    and 1 unit in stock is reordered 3 units at 0.01, since the float
    product [3 * 0.005] is 0.015 rounded down to binary64, while the exact
    product 0.015 rounds to 0.02. *)
Lemma check_restock_needed_cost_rounded :
  match check_restock_needed [] [mk_inv_row "Glossy paper" "specialty" (123 # 1000) 1]
          "Glossy paper" "2025-01-01" with
  | RestockChecked rep =>
      rs_needs_restock rep = true /\ rs_recommended_reorder_qty rep = 2
      /\ (rs_estimated_reorder_cost rep == 25 # 100)%Q
      /\ ~ (rs_estimated_reorder_cost rep
            == inject_Z (rs_recommended_reorder_qty rep) * rs_unit_price rep)%Q
  | RestockNotInCatalog _ => False
  end
  /\ match check_restock_needed [mk_txn (Some "Stickers"%string) "stock_orders" 1 0 "2025-01-01"]
             [mk_inv_row "Stickers" "specialty" (5 # 1000) 2] "Stickers" "2025-01-01" with
     | RestockChecked rep =>
         rs_recommended_reorder_qty rep = 3
         /\ (rs_estimated_reorder_cost rep == 1 # 100)%Q
         /\ (round2 (inject_Z (rs_recommended_reorder_qty rep) * rs_unit_price rep) == 2 # 100)%Q
     | RestockNotInCatalog _ => False
     end.
Proof. vm_compute. split; [split; [reflexivity|]; split; [reflexivity|]; split; [reflexivity|];
  discriminate|]. split; [reflexivity|]. split; reflexivity. Qed.

(** C8 (amended): for an item in the catalog ([r] its first row),
    [check_restock_needed] reports [needs_restock] exactly when the stock is
    below [min_stock_level]; then it recommends [2 * min - stock] units at
    an [estimated_reorder_cost] that is the binary64 product of that count
    and the float [unit_price], rounded to cents; otherwise both are 0. *)
Theorem check_restock_needed_report (db : ledger) (cat : catalog) (item date : string)
    (r : inv_row) (rest : catalog) :
  lookup_rows cat item = r :: rest ->
  let cs := get_stock_level db item date in
  let m := min_stock_level r in
  exists rep,
    check_restock_needed db cat item date = RestockChecked rep
    /\ rs_current_stock rep = cs /\ rs_min_stock_level rep = m
    /\ (rs_needs_restock rep = true <-> cs < m)
    /\ (cs < m ->
        rs_recommended_reorder_qty rep = 2 * m - cs
        /\ rs_estimated_reorder_cost rep
           = round2 (F2Q (fmul (Z2F (2 * m - cs)) (Q2F (unit_price r)))))
    /\ (~ cs < m -> rs_recommended_reorder_qty rep = 0
                    /\ (rs_estimated_reorder_cost rep == 0)%Q).
Proof.
  intros Hr cs m. unfold check_restock_needed. rewrite Hr. fold cs. fold m.
  destruct (Z.ltb_spec cs m) as [Hlt|Hge].
  - eexists. split; [reflexivity|]. cbn [rs_current_stock rs_min_stock_level
      rs_needs_restock rs_recommended_reorder_qty rs_estimated_reorder_cost].
    split; [reflexivity|]. split; [reflexivity|]. split; [split; [intros _; exact Hlt | reflexivity]|].
    split; [|intros H; contradiction].
    intros _. replace (m * 2 - cs) with (2 * m - cs) by ring.
    split; reflexivity.
  - eexists. split; [reflexivity|]. cbn [rs_current_stock rs_min_stock_level
      rs_needs_restock rs_recommended_reorder_qty rs_estimated_reorder_cost].
    split; [reflexivity|]. split; [reflexivity|].
    split; [split; [discriminate | intros H; lia]|].
    split; [intros H; lia|]. intros _. split; [reflexivity | vm_compute; reflexivity].
Qed.

(** Witness for C8, on spec scenario 4: stock 480 against a minimum of 500
    recommends 520 units. *)
Lemma check_restock_needed_report_witness :
  let db := [mk_txn (Some "A4 paper"%string) "stock_orders" 520 0 "2025-01-01";
             mk_txn (Some "A4 paper"%string) "sales" 40 2 "2025-01-02"] in
  let cat := [mk_inv_row "A4 paper" "paper" (5 # 100) 500] in
  lookup_rows cat "A4 paper" = [mk_inv_row "A4 paper" "paper" (5 # 100) 500]
  /\ exists rep, check_restock_needed db cat "A4 paper" "2025-01-02" = RestockChecked rep
     /\ rs_current_stock rep = 480 /\ rs_needs_restock rep = true
     /\ rs_recommended_reorder_qty rep = 520.
Proof.
  intros db cat.
  assert (Hr : lookup_rows cat "A4 paper" = [mk_inv_row "A4 paper" "paper" (5 # 100) 500])
    by reflexivity.
  split; [exact Hr|].
  destruct (check_restock_needed_report db cat "A4 paper" "2025-01-02" _ _ Hr)
    as [rep [E [Hcs [Hm [Hn [Hyes _]]]]]].
  assert (Hcs' : get_stock_level db "A4 paper" "2025-01-02" = 480) by (vm_compute; reflexivity).
  rewrite Hcs' in Hcs, Hn, Hyes. cbn [min_stock_level] in Hn, Hyes.
  exists rep. split; [exact E|]. split; [exact Hcs|].
  split; [apply Hn; lia|]. destruct (Hyes ltac:(lia)) as [Hq _]. exact Hq.
Defined.


(** C4, counterexample: when [orchestrator.run] raises an [Exception], the
    customer gets the apology followed by the raw error message, so two
    different failures give two different answers; an exception outside
    [Exception] ([KeyboardInterrupt], [SystemExit]) is not caught. *)
Lemma process_customer_request_exposes_error :
  let req := "I need 500 sheets of A4 paper"%string in
  let date := "2025-01-01"%string in
  process_customer_request (fun _ => Raised IsException "database is locked") req date
    = Returns (apology_prefix ++ "database is locked")%string
  /\ process_customer_request (fun _ => Raised IsException "database is locked") req date
    <> process_customer_request (fun _ => Raised IsException "no such table: inventory") req date
  /\ process_customer_request (fun _ => Raised BaseExceptionOnly EmptyString) req date
    = Propagates BaseExceptionOnly EmptyString.
Proof.
  intros req date. split; [reflexivity|]. split; [|reflexivity].
  vm_compute. intros H. inversion H.
Qed.

(** C4 (amended): [process_customer_request] returns [str(response)] when
    [orchestrator.run] returns, returns the apology prefix followed by
    [str(e)] when it raises an [Exception] [e], and lets any other
    [BaseException] propagate. *)
Theorem process_customer_request_outcomes (run : string -> run_outcome)
    (request date : string) :
  (forall s, run (full_request request date) = Returned s ->
     process_customer_request run request date = Returns s)
  /\ (forall e, run (full_request request date) = Raised IsException e ->
     process_customer_request run request date = Returns (apology_prefix ++ e)%string)
  /\ (forall e, run (full_request request date) = Raised BaseExceptionOnly e ->
     process_customer_request run request date = Propagates BaseExceptionOnly e).
Proof.
  unfold process_customer_request.
  split; [|split]; intros x H; rewrite H; reflexivity.
Qed.

(** C5: [create_transaction] with a [transaction_type] other than
    [stock_orders] and [sales] raises [ValueError] and leaves the table as it
    was; with one of the two it appends exactly one row, under a rowid not
    yet in the table, and (the engine reusing the inserting connection)
    returns that rowid. *)
Theorem create_transaction_contract (pooled_same_connection : bool) (st : store)
    (item_name transaction_type : string) (quantity : Z) (price : Q) (date : string) :
  let res := create_transaction pooled_same_connection st item_name transaction_type
               quantity price date in
  let row := mk_txn (Some item_name) transaction_type quantity price date in
  ((String.eqb transaction_type "stock_orders" || String.eqb transaction_type "sales")%bool = false ->
     res = (TxValueError, st))
  /\ ((String.eqb transaction_type "stock_orders" || String.eqb transaction_type "sales")%bool = true ->
     st_rows (snd res) = (st_rows st ++ [(next_rowid st, row)])%list
     /\ ~ In (next_rowid st) (map fst (st_rows st))
     /\ (pooled_same_connection = true -> fst res = TxId (next_rowid st))).
Proof.
  intros res row. unfold res, create_transaction.
  split; intros H; rewrite H; cbn [negb].
  - reflexivity.
  - split; [reflexivity|]. split; [apply next_rowid_fresh|].
    intros Hp. rewrite Hp. reflexivity.
Qed.

(** C6: the Evaluator runs at most [max_iterations] draft and judge rounds
    and always returns; when it does not accept, it ran all the rounds, all
    rejected, and [final_response] is the draft of the last round. *)
Theorem evaluate_bounded (respond : nat -> string -> string)
    (judge : nat -> string -> verdict) (max_iterations : nat) (prompt : string) :
  let r := evaluate respond judge max_iterations prompt in
  (List.length (rounds r) <= max_iterations)%nat
  /\ (accepted r = true -> exists rs lr, rounds r = (rs ++ [lr])%list
        /\ v_accepted (round_verdict lr) = true /\ final_response r = draft_response lr)
  /\ (accepted r = false ->
        List.length (rounds r) = max_iterations
        /\ Forall (fun x => v_accepted (round_verdict x) = false) (rounds r)
        /\ (forall rs lr, rounds r = (rs ++ [lr])%list -> final_response r = draft_response lr)).
Proof.
  intros r.
  destruct (eval_loop_spec respond judge max_iterations 1 prompt prompt [])
    as [new [Hr [Hlen [Hacc Hrej]]]].
  fold (evaluate respond judge max_iterations prompt) in Hr, Hacc, Hrej. fold r in Hr, Hacc, Hrej.
  cbn [app] in Hr. rewrite Hr.
  split; [exact Hlen|]. split; [exact Hacc|].
  intros Ha. destruct (Hrej Ha) as [Hl [Hall Hf]].
  split; [exact Hl|]. split; [exact Hall|].
  intros rs lr Hd. rewrite Hf. cbn [app]. rewrite Hd, map_app. apply last_last.
Qed.

(** C7: the lead time of [check_delivery_timeline] is non-decreasing in the
    quantity and maps 10, 11, 100, 101, 1000, 1001 to 0, 1, 1, 4, 4, 7 days;
    for an order date that parses (and a result within [date.max]) the
    delivery date is the calendar date [lead_time_days] days after it. *)
Theorem delivery_lead_time (today : Z) (date : string) (quantity : Z) :
  (forall q1 q2, q1 <= q2 -> lead_time_days q1 <= lead_time_days q2)
  /\ map lead_time_days [10; 11; 100; 101; 1000; 1001] = [0; 1; 1; 4; 4; 7]
  /\ (forall o, parse_iso_ordinal (before_T date) = Some o ->
        o + lead_time_days quantity <= MAXORDINAL ->
        check_delivery_timeline today date quantity
        = Some (mk_timeline date (strftime_ymd (o + lead_time_days quantity))
                  (lead_time_days quantity) quantity)).
Proof.
  split; [|split; [reflexivity|]].
  - intros q1 q2 H. unfold lead_time_days.
    destruct (Z.leb_spec q1 10), (Z.leb_spec q2 10); try lia;
    destruct (Z.leb_spec q1 100); try lia; destruct (Z.leb_spec q2 100); try lia;
    destruct (Z.leb_spec q1 1000); try lia; destruct (Z.leb_spec q2 1000); lia.
  - intros o Ho Hmax. unfold check_delivery_timeline, get_supplier_delivery_date.
    rewrite Ho.
    assert (Hd : supplier_days quantity = lead_time_days quantity) by reflexivity.
    rewrite Hd. destruct (Z.leb_spec (o + lead_time_days quantity) MAXORDINAL); [|lia].
    reflexivity.
Qed.

(* ------------------------------------------------------------------ *)
(** ** Further properties of the code *)

(** X1: the snapshot of [get_all_inventory] maps every item to its stock level as [get_stock_level] computes it when that level is positive, holds no other item, and lists each item once. *)
Theorem get_all_inventory_stock_levels (db : ledger) (as_of_date : string) :
  (forall item, dict_get (get_all_inventory db as_of_date) item
     = if 0 <? get_stock_level db item as_of_date
       then Some (get_stock_level db item as_of_date) else None)
  /\ NoDup (map fst (get_all_inventory db as_of_date)).
Proof.
  split; [intros item; apply inventory_lookup|].
  unfold get_all_inventory. cbv zeta.
  generalize (NoDup_nodup string_dec (flat_map name_of (named_upto db (pad_as_of as_of_date)))).
  unfold group_names.
  generalize (nodup string_dec (flat_map name_of (named_upto db (pad_as_of as_of_date)))).
  intros ns Hns. induction Hns as [|n ns Hn Hns IH]; [constructor|].
  cbn [map filter]. destruct (0 <? snd _); [|exact IH].
  cbn [map fst]. constructor; [|exact IH].
  intros Hin. apply Hn.
  apply in_map_iff in Hin. destruct Hin as [[k v] [Hk Hin]]. cbn [fst] in Hk. subst k.
  apply filter_In in Hin. destruct Hin as [Hin _].
  apply in_map_iff in Hin. destruct Hin as [m [Hm Hin]]. injection Hm as Hm _.
  subst m. exact Hin.
Qed.

(** X2: a ledger row dated after the end of the as-of day does not change the [get_all_inventory] snapshot. *)
Theorem get_all_inventory_future_rows (db : ledger) (r : txn) (as_of_date : string) :
  str_leb (transaction_date r) (pad_as_of as_of_date) = false ->
  get_all_inventory (db ++ [r]) as_of_date = get_all_inventory db as_of_date.
Proof.
  intros Hr. unfold get_all_inventory, named_upto. cbv zeta.
  rewrite filter_app. cbn [filter]. rewrite Hr, andb_false_r, app_nil_r. reflexivity.
Qed.

Lemma get_all_inventory_future_rows_witness :
  let db := [mk_txn (Some "A4 paper"%string) "stock_orders" 500 (25 # 1) "2025-04-01"] in
  let r := mk_txn (Some "A4 paper"%string) "sales" 200 (20 # 1) "2025-04-02" in
  str_leb (transaction_date r) (pad_as_of "2025-04-01") = false
  /\ get_all_inventory (db ++ [r]) "2025-04-01" = get_all_inventory db "2025-04-01".
Proof.
  intros db r.
  assert (H : str_leb (transaction_date r) (pad_as_of "2025-04-01") = false) by reflexivity.
  split; [exact H | exact (get_all_inventory_future_rows db r "2025-04-01" H)].
Defined.

(** X3: [check_item_stock] echoes the item name, and its stock is the one [check_all_inventory] lists for the item exactly when that stock is positive; the item is absent from that list exactly when its stock is zero or negative. *)
Theorem check_item_stock_agrees (db : ledger) (item date : string) :
  fst (check_item_stock db item date) = item
  /\ (forall v, dict_get (check_all_inventory db date) item = Some v
                <-> snd (check_item_stock db item date) = v /\ 0 < v)
  /\ (dict_get (check_all_inventory db date) item = None
      <-> snd (check_item_stock db item date) <= 0).
Proof.
  unfold check_item_stock, get_stock_level_frame, check_all_inventory. cbn [fst snd].
  rewrite inventory_lookup. set (s := get_stock_level db item date).
  split; [reflexivity|]. split.
  - intros v. destruct (Z.ltb_spec 0 s); split; intros H'.
    + injection H' as <-. auto.
    + destruct H' as [<- _]. reflexivity.
    + discriminate.
    + lia.
  - destruct (Z.ltb_spec 0 s); split; intros H'; try discriminate; try lia; reflexivity.
Qed.

(** X4: [process_sales_transaction] reports a sales row with the id the store assigns, leaves every other item's stock alone, and as of any date not before the sale lowers the item's stock by the quantity and raises the cash balance by the price; as of an earlier date both are unchanged. *)
Theorem process_sales_transaction_effect (pooled_same_connection : bool) (st : store)
    (item : string) (quantity : Z) (price : Q) (date as_of : string) :
  let '(res, st') := process_sales_transaction pooled_same_connection st item quantity price date in
  res = TxRecorded (if pooled_same_connection then next_rowid st else 0) "sales"
  /\ (forall other, other <> item ->
        get_stock_level (ledger_of st') other as_of = get_stock_level (ledger_of st) other as_of)
  /\ (str_leb date (pad_as_of as_of) = true ->
        get_stock_level (ledger_of st') item as_of
          = get_stock_level (ledger_of st) item as_of - quantity
        /\ (get_cash_balance (Some (ledger_of st')) as_of
            == get_cash_balance (Some (ledger_of st)) as_of + price)%Q)
  /\ (str_leb date (pad_as_of as_of) = false ->
        get_stock_level (ledger_of st') item as_of = get_stock_level (ledger_of st) item as_of
        /\ get_cash_balance (Some (ledger_of st')) as_of
           = get_cash_balance (Some (ledger_of st)) as_of).
Proof.
  rename price into p.
  pose proof (ledger_of_create pooled_same_connection st item "sales" quantity p date
                eq_refl) as Hl.
  unfold process_sales_transaction, create_transaction in *. cbv zeta in *.
  replace (String.eqb "sales" "stock_orders" || String.eqb "sales" "sales")%bool
    with true in * by reflexivity.
  cbn [negb snd] in Hl |- *. rewrite Hl.
  set (row := mk_txn (Some item) "sales" quantity p date).
  split; [destruct pooled_same_connection; reflexivity|]. split; [|split].
  - intros other Ho. apply stock_append_other. cbn. apply String.eqb_neq. congruence.
  - intros Hd. split.
    + rewrite stock_append_inside.
      * unfold stock_case. cbn [transaction_type units row].
        replace (String.eqb "sales" "stock_orders") with false by reflexivity.
        rewrite String.eqb_refl. lia.
      * cbn [item_name transaction_date row opt_str_eqb]. rewrite String.eqb_refl, Hd. reflexivity.
    + rewrite (cash_append_inside _ row as_of Hd). cbn [transaction_type price row].
      replace (String.eqb "sales" "stock_orders") with false by reflexivity.
      rewrite String.eqb_refl. ring.
  - intros Hd. split; [apply stock_append_outside | apply cash_append_outside]; exact Hd.
Qed.

(** X5: [process_stock_order_transaction] reports a stock-order row with the id the store assigns, leaves every other item's stock alone, and as of any date not before the order raises the item's stock by the quantity and lowers the cash balance by the price; as of an earlier date both are unchanged. *)
Theorem process_stock_order_transaction_effect (pooled_same_connection : bool) (st : store)
    (item : string) (quantity : Z) (price : Q) (date as_of : string) :
  let '(res, st') := process_stock_order_transaction pooled_same_connection st item quantity price date in
  res = TxRecorded (if pooled_same_connection then next_rowid st else 0) "stock_orders"
  /\ (forall other, other <> item ->
        get_stock_level (ledger_of st') other as_of = get_stock_level (ledger_of st) other as_of)
  /\ (str_leb date (pad_as_of as_of) = true ->
        get_stock_level (ledger_of st') item as_of
          = get_stock_level (ledger_of st) item as_of + quantity
        /\ (get_cash_balance (Some (ledger_of st')) as_of
            == get_cash_balance (Some (ledger_of st)) as_of - price)%Q)
  /\ (str_leb date (pad_as_of as_of) = false ->
        get_stock_level (ledger_of st') item as_of = get_stock_level (ledger_of st) item as_of
        /\ get_cash_balance (Some (ledger_of st')) as_of
           = get_cash_balance (Some (ledger_of st)) as_of).
Proof.
  rename price into p.
  pose proof (ledger_of_create pooled_same_connection st item "stock_orders" quantity p date
                eq_refl) as Hl.
  unfold process_stock_order_transaction, create_transaction in *. cbv zeta in *.
  replace (String.eqb "stock_orders" "stock_orders" || String.eqb "stock_orders" "sales")%bool
    with true in * by reflexivity.
  cbn [negb snd] in Hl |- *. rewrite Hl.
  set (row := mk_txn (Some item) "stock_orders" quantity p date).
  split; [destruct pooled_same_connection; reflexivity|]. split; [|split].
  - intros other Ho. apply stock_append_other. cbn. apply String.eqb_neq. congruence.
  - intros Hd. split.
    + rewrite stock_append_inside.
      * unfold stock_case. cbn [transaction_type units row].
        rewrite String.eqb_refl. reflexivity.
      * cbn [item_name transaction_date row opt_str_eqb]. rewrite String.eqb_refl, Hd. reflexivity.
    + rewrite (cash_append_inside _ row as_of Hd). cbn [transaction_type price row].
      replace (String.eqb "stock_orders" "sales") with false by reflexivity.
      rewrite String.eqb_refl. ring.
  - intros Hd. split; [apply stock_append_outside | apply cash_append_outside]; exact Hd.
Qed.

(** X7: a sale timestamped later on the report day itself is left out of the report's top-selling products (whose query compares with the bare date) but is counted in its cash balance (whose query pads the date to the end of the day). *)
Theorem top_sales_skip_report_day (db : ledger) (cat : catalog) (d s : string) (r : txn) :
  String.length d = 10%nat ->
  transaction_type r = "sales"%string ->
  transaction_date r = (d ++ s)%string ->
  s <> EmptyString ->
  str_leb s end_of_day = true ->
  fr_top_selling_products (generate_financial_report (db ++ [r]) cat d)
    = fr_top_selling_products (generate_financial_report db cat d)
  /\ (fr_cash_balance (generate_financial_report (db ++ [r]) cat d)
      == fr_cash_balance (generate_financial_report db cat d) + price r)%Q.
Proof.
  intros Hlen Hty Hdate Hs Hsuf.
  unfold generate_financial_report. cbv zeta.
  cbn [fr_top_selling_products fr_cash_balance]. split.
  - assert (H1 : str_leb (transaction_date r) d = false)
      by (rewrite Hdate; unfold str_leb; rewrite str_cmp_extend by exact Hs; reflexivity).
    unfold top_sales_rows. rewrite filter_app. cbn [filter].
    rewrite H1, andb_false_r, app_nil_r. reflexivity.
  - assert (H2 : str_leb (transaction_date r) (pad_as_of d) = true).
    { unfold pad_as_of. rewrite Hlen. cbn [Nat.eqb]. rewrite Hdate.
      unfold str_leb. rewrite str_cmp_same_prefix. exact Hsuf. }
    rewrite (cash_append_inside db r d H2), Hty.
    replace (String.eqb "sales" "stock_orders") with false by reflexivity.
    rewrite String.eqb_refl. ring.
Qed.

Lemma top_sales_skip_report_day_witness :
  let r := mk_txn (Some "A4 paper"%string) "sales" 100 (5 # 1) "2025-04-01T09:30:00" in
  (String.length "2025-04-01" = 10%nat /\ transaction_type r = "sales"%string
   /\ transaction_date r = ("2025-04-01" ++ "T09:30:00")%string
   /\ "T09:30:00"%string <> EmptyString /\ str_leb "T09:30:00" end_of_day = true)
  /\ fr_top_selling_products (generate_financial_report ([] ++ [r]) [] "2025-04-01")
     = fr_top_selling_products (generate_financial_report [] [] "2025-04-01")
  /\ (fr_cash_balance (generate_financial_report ([] ++ [r]) [] "2025-04-01")
      == fr_cash_balance (generate_financial_report [] [] "2025-04-01") + price r)%Q.
Proof.
  intros r.
  assert (H1 : String.length "2025-04-01" = 10%nat) by reflexivity.
  assert (H2 : transaction_type r = "sales"%string) by reflexivity.
  assert (H3 : transaction_date r = ("2025-04-01" ++ "T09:30:00")%string) by reflexivity.
  assert (H4 : "T09:30:00"%string <> EmptyString) by discriminate.
  assert (H5 : str_leb "T09:30:00" end_of_day = true) by reflexivity.
  split; [repeat split; assumption|].
  exact (top_sales_skip_report_day [] [] "2025-04-01" "T09:30:00" r H1 H2 H3 H4 H5).
Defined.

(** X9: [check_cash_balance], [approve_purchase], [get_financial_report] and [calculate_financial_health] report the same rounded cash balance for the same ledger and date. *)
Theorem finance_tools_same_cash (db : ledger) (cat : catalog) (date : string)
    (purchase_amount safety_margin : Q) :
  cv_cash_balance (check_cash_balance (Some db) date)
    = ap_current_balance (approve_purchase (Some db) purchase_amount date safety_margin)
  /\ ap_current_balance (approve_purchase (Some db) purchase_amount date safety_margin)
    = rv_cash_balance (get_financial_report db cat date)
  /\ rv_cash_balance (get_financial_report db cat date)
    = hv_cash_balance (calculate_financial_health db cat date).
Proof.
  split; [reflexivity|]. split; [reflexivity|].
  unfold calculate_financial_health. cbv zeta.
  destruct (negb _); reflexivity.
Qed.

(** X10: [get_item_prices] returns one entry per requested name, in order; an entry is found exactly when the name is in the catalog, and then its price is the one [get_item_price] and [get_item_unit_price] give; otherwise its price is 0, [get_item_price] returns -1 and [get_item_unit_price] reports the item not found. *)
Theorem get_item_prices_agree (cat : catalog) (item_names : list string) :
  List.length (get_item_prices cat item_names) = List.length item_names
  /\ forall i n, nth_error item_names i = Some n ->
     exists e, nth_error (get_item_prices cat item_names) i = Some e
       /\ pe_item_name e = n
       /\ ((pe_found e = true /\ pe_unit_price e = get_item_price cat n
            /\ In n (map inv_item_name cat)
            /\ exists c, get_item_unit_price cat n = PriceFound n (pe_unit_price e) c)
           \/ (pe_found e = false /\ pe_unit_price e = 0%Q
               /\ get_item_price cat n = (-1)%Q
               /\ ~ In n (map inv_item_name cat)
               /\ get_item_unit_price cat n = PriceNotFound n)).
Proof.
  split; [apply length_map|].
  intros i n Hn. unfold get_item_prices. rewrite nth_error_map, Hn. cbn [option_map].
  eexists. split; [reflexivity|].
  unfold get_item_price, get_item_unit_price.
  destruct (lookup_rows cat n) as [|r rs] eqn:E.
  - cbn. split; [reflexivity|]. right. repeat split.
    apply lookup_rows_nil. exact E.
  - cbn. split; [reflexivity|]. left. repeat split.
    + destruct (In_dec string_dec n (map inv_item_name cat)) as [Hi|Hi]; [exact Hi|].
      apply lookup_rows_nil in Hi. congruence.
    + eexists. reflexivity.
Qed.

(** X11: [find_similar_items] with an empty term returns the whole catalog; for terms without regex metacharacters the search ignores the case of the term, finds every row whose lower-cased name contains the lower-cased term, and a longer term finds no row a prefix of it misses. *)
Theorem find_similar_items_search (cat : catalog) :
  find_similar_items cat EmptyString = cat
  /\ (forall s, regex_literal s = true ->
        find_similar_items cat (lower s) = find_similar_items cat s)
  /\ (forall r p q u, regex_literal q = true -> In r cat ->
        lower (inv_item_name r) = (p ++ lower q ++ u)%string ->
        In r (find_similar_items cat q))
  /\ (forall s t, regex_literal (s ++ t) = true ->
        incl (find_similar_items cat (s ++ t)) (find_similar_items cat s)).
Proof.
  unfold find_similar_items. split; [|split; [|split]].
  - induction cat as [|r cat IH]; [reflexivity|].
    cbn [filter]. rewrite IH. change (lower EmptyString) with EmptyString.
    rewrite containsb_nil. reflexivity.
  - intros s _. rewrite lower_idem. reflexivity.
  - intros r p q u _ Hr Hname. apply filter_In. split; [exact Hr|].
    rewrite Hname. apply containsb_middle.
  - intros s t _ r Hr. apply filter_In in Hr. destruct Hr as [Hr Hc].
    apply filter_In. split; [exact Hr|].
    rewrite lower_app in Hc. exact (containsb_app_l _ _ _ Hc).
Qed.

(** X12: the SQL text of [search_quote_history] depends only on the number of search terms and the limit, never on the terms' contents; with no terms the condition is 1=1; the parameters are named term_0, term_1, ... and hold the lower-cased terms wrapped in %. *)
Theorem search_quote_history_query (limit : nat) :
  (forall ts1 ts2, List.length ts1 = List.length ts2 ->
     search_quote_query ts1 limit = search_quote_query ts2 limit)
  /\ where_clause [] = "1=1"%string
  /\ (forall ts, map fst (quote_params ts) = map term_param (seq 0 (List.length ts))
        /\ map snd (quote_params ts) = map (fun t => "%" ++ lower t ++ "%")%string ts).
Proof.
  split; [|split; [reflexivity|]].
  - intros ts1 ts2 H.
    assert (Hw : where_clause ts1 = where_clause ts2).
    { destruct ts1 as [|a ts1], ts2 as [|b ts2]; try discriminate; [reflexivity|].
      unfold where_clause.
      rewrite (enumerate_fst term_condition 0 (a :: ts1)),
              (enumerate_fst term_condition 0 (b :: ts2)), H.
      reflexivity. }
    unfold search_quote_query. rewrite Hw. reflexivity.
  - intros ts. unfold quote_params. rewrite !map_map. cbn [fst snd]. split.
    + apply (enumerate_fst term_param).
    + apply (enumerate_snd (fun t => "%" ++ lower t ++ "%")%string).
Qed.

(** X13: [get_hardcoded_answer] never returns the project-manager answer (the earlier project branch catches every such question), and its answer does not depend on the case of the question. *)
Theorem get_hardcoded_answer_branches :
  (forall question, get_hardcoded_answer question <> answer_project_manager)
  /\ (forall question, get_hardcoded_answer (lower question) = get_hardcoded_answer question).
Proof.
  split.
  - intros question. unfold get_hardcoded_answer. cbv zeta.
    set (l := lower question).
    unfold answer_project_manager, answer_gantt, answer_agile, answer_sprint,
      answer_critical_path, answer_milestone, answer_project_management, answer_project,
      answer_program, answer_unknown.
    destruct (containsb "gantt" l); [discriminate|].
    destruct (containsb "agile" l); [discriminate|].
    destruct (containsb "sprint" l); [discriminate|].
    destruct (containsb "critical path" l); [discriminate|].
    destruct (containsb "milestone" l); [discriminate|].
    destruct (containsb "project management" l); [discriminate|].
    destruct (containsb "project" l) eqn:Ep; [discriminate|].
    destruct (containsb "program" l); [discriminate|].
    destruct (containsb "project manager" l) eqn:Epm; [|discriminate].
    change "project manager"%string with ("project" ++ " manager")%string in Epm.
    apply containsb_app_l in Epm. congruence.
  - intros question. unfold get_hardcoded_answer. rewrite lower_idem. reflexivity.
Qed.

(** X14: [calculate_quote_price] gives the same total units and discount percentage for any reordering of the line items, and reorders the breakdown the same way, each row depending on its own line item only. (The subtotal is left out: the source accumulates it with float [+=], whose rounding depends on the order.) *)
Theorem calculate_quote_price_order_free (items1 items2 : list line_item) :
  Permutation items1 items2 ->
  let q1 := calculate_quote_price items1 in
  let q2 := calculate_quote_price items2 in
  total_units q1 = total_units q2 /\ discount_percent q1 = discount_percent q2
  /\ Permutation (breakdown q1) (breakdown q2).
Proof.
  intros Hp q1 q2. unfold q1, q2, calculate_quote_price.
  destruct items1 as [|a1 l1].
  { apply Permutation_nil in Hp. subst items2. repeat split; constructor. }
  destruct items2 as [|a2 l2].
  { symmetry in Hp. apply Permutation_nil in Hp. discriminate. }
  pose proof (quote_fold (a1 :: l1) 0 0 []) as F1.
  pose proof (quote_fold (a2 :: l2) 0 0 []) as F2.
  pose proof (quote_fold_breakdown (a1 :: l1) 0 0 []) as B1.
  pose proof (quote_fold_breakdown (a2 :: l2) 0 0 []) as B2.
  destruct (fold_left quote_step (a1 :: l1) (0%Q, 0, [])) as [[s1 u1] b1].
  destruct (fold_left quote_step (a2 :: l2) (0%Q, 0, [])) as [[s2 u2] b2].
  destruct F1 as [_ U1]. destruct F2 as [_ U2]. cbn [snd app] in B1, B2.
  assert (Hu : u1 = u2) by (rewrite U1, U2, (quote_units_perm _ _ Hp); reflexivity).
  clear U1 U2. subst u2 b1 b2. cbn [total_units discount_percent breakdown].
  split; [reflexivity|]. split; [reflexivity|]. apply Permutation_map. exact Hp.
Qed.

Lemma calculate_quote_price_order_free_witness :
  let a := mk_line_item (Some "A4 paper"%string) (Some 400) (Some (5 # 100)) in
  let b := mk_line_item (Some "Cardstock"%string) (Some 200) (Some (15 # 100)) in
  Permutation [a; b] [b; a]
  /\ discount_percent (calculate_quote_price [a; b])
     = discount_percent (calculate_quote_price [b; a]).
Proof.
  intros a b.
  assert (H : Permutation [a; b] [b; a]) by apply perm_swap.
  split; [exact H|].
  exact (proj1 (proj2 (calculate_quote_price_order_free _ _ H))).
Defined.

(** X15: the time part after T of an order date does not change the delivery date that [get_supplier_delivery_date] and [check_delivery_timeline] compute. *)
Theorem supplier_delivery_ignores_time (today : Z) (d rest : string) (quantity : Z) :
  before_T d = d ->
  get_supplier_delivery_date today (d ++ String "T" rest) quantity
    = get_supplier_delivery_date today d quantity
  /\ option_map tl_delivery_date (check_delivery_timeline today (d ++ String "T" rest) quantity)
    = option_map tl_delivery_date (check_delivery_timeline today d quantity).
Proof.
  intros H.
  assert (E : get_supplier_delivery_date today (d ++ String "T" rest) quantity
              = get_supplier_delivery_date today d quantity).
  { unfold get_supplier_delivery_date. rewrite (before_T_prefix d rest H), H. reflexivity. }
  split; [exact E|]. unfold check_delivery_timeline. rewrite E.
  destruct (get_supplier_delivery_date today d quantity); reflexivity.
Qed.

Lemma supplier_delivery_ignores_time_witness :
  before_T "2025-04-01" = "2025-04-01"%string
  /\ get_supplier_delivery_date 739342 ("2025-04-01" ++ String "T" "10:30:00") 50
     = get_supplier_delivery_date 739342 "2025-04-01" 50.
Proof.
  assert (H : before_T "2025-04-01" = "2025-04-01"%string) by reflexivity.
  split; [exact H|].
  exact (proj1 (supplier_delivery_ignores_time 739342 "2025-04-01" "10:30:00" 50 H)).
Defined.

(** X17: placing the stock order that [check_restock_needed] recommends, dated no later than the check date, brings the item to twice its minimum stock level, after which no restock is needed. *)
Theorem restock_order_restores_level (pooled_same_connection : bool) (st : store)
    (cat : catalog) (item date order_date : string) (rep : restock_report) (cost : Q) :
  check_restock_needed (ledger_of st) cat item date = RestockChecked rep ->
  rs_needs_restock rep = true ->
  0 <= rs_min_stock_level rep ->
  str_leb order_date (pad_as_of date) = true ->
  let st' := snd (process_stock_order_transaction pooled_same_connection st item
                    (rs_recommended_reorder_qty rep) cost order_date) in
  exists rep',
    check_restock_needed (ledger_of st') cat item date = RestockChecked rep'
    /\ rs_current_stock rep' = 2 * rs_min_stock_level rep
    /\ rs_needs_restock rep' = false
    /\ rs_recommended_reorder_qty rep' = 0.
Proof.
  intros H1 H2 H3 H4 st'.
  unfold check_restock_needed in H1. cbv zeta in H1.
  destruct (lookup_rows cat item) as [|r rs] eqn:El; [discriminate|].
  set (cs := get_stock_level (ledger_of st) item date) in H1.
  destruct (cs <? min_stock_level r) eqn:En.
  2: { injection H1 as <-. cbn in H2. discriminate. }
  injection H1 as <-. cbn [rs_recommended_reorder_qty rs_min_stock_level] in st', H3 |- *.
  assert (Hl : ledger_of st' = ledger_of st ++ [mk_txn (Some item) "stock_orders"
                                                   (min_stock_level r * 2 - cs) cost order_date]).
  { unfold st', process_stock_order_transaction.
    rewrite <- (ledger_of_create pooled_same_connection st item "stock_orders" _ cost order_date
                  eq_refl).
    destruct (create_transaction _ _ _ _ _ _ _) as [[id|] s]; reflexivity. }
  assert (Hs : get_stock_level (ledger_of st') item date = min_stock_level r * 2).
  { rewrite Hl, stock_append_inside.
    - unfold stock_case. cbn [transaction_type units]. rewrite String.eqb_refl. fold cs. lia.
    - cbn [item_name transaction_date opt_str_eqb]. rewrite String.eqb_refl, H4. reflexivity. }
  unfold check_restock_needed. cbv zeta. rewrite El, Hs.
  assert (Hf : (min_stock_level r * 2 <? min_stock_level r) = false) by (apply Z.ltb_ge; lia).
  rewrite Hf. eexists. split; [reflexivity|].
  cbn [rs_current_stock rs_needs_restock rs_recommended_reorder_qty]. repeat split; lia.
Qed.

Lemma restock_order_restores_level_witness :
  let st := mk_store [(1, mk_txn (Some "A4 paper"%string) "stock_orders" 100 (5 # 1) "2025-01-01")] 1 in
  let cat := [mk_inv_row "A4 paper" "paper" (5 # 100) 500] in
  let rep := mk_restock_report 100 500 true 900 (round2 (inject_Z 900 * (5 # 100))) (5 # 100) in
  (check_restock_needed (ledger_of st) cat "A4 paper" "2025-04-01" = RestockChecked rep
   /\ rs_needs_restock rep = true /\ 0 <= rs_min_stock_level rep
   /\ str_leb "2025-04-01" (pad_as_of "2025-04-01") = true)
  /\ exists rep',
    check_restock_needed
      (ledger_of (snd (process_stock_order_transaction true st "A4 paper"
                         (rs_recommended_reorder_qty rep) (45 # 1) "2025-04-01")))
      cat "A4 paper" "2025-04-01" = RestockChecked rep'
    /\ rs_current_stock rep' = 2 * rs_min_stock_level rep
    /\ rs_needs_restock rep' = false
    /\ rs_recommended_reorder_qty rep' = 0.
Proof.
  intros st cat rep.
  assert (H1 : check_restock_needed (ledger_of st) cat "A4 paper" "2025-04-01" = RestockChecked rep)
    by (vm_compute; reflexivity).
  assert (H2 : rs_needs_restock rep = true) by reflexivity.
  assert (H3 : 0 <= rs_min_stock_level rep) by (cbn; lia).
  assert (H4 : str_leb "2025-04-01" (pad_as_of "2025-04-01") = true) by reflexivity.
  split; [repeat split; assumption|].
  exact (restock_order_restores_level true st cat "A4 paper" "2025-04-01" "2025-04-01" rep
           (45 # 1) H1 H2 H3 H4).
Defined.
